(** * metar: URL construction and the per-station fetch loop

    A shallow embedding of [src/main.c]: the station-identifier URL builder
    [formURL], the libcurl write callback [printData] and the driver [main],
    followed by the properties the specification states about them.

    Conventions.
    - A C string value (a string literal, an element of [argv]) is the list
      of its characters before the terminating NUL; [strlen] is its length.
    - A [char] array is a list of cells; a cell is [None] while its value is
      indeterminate.  Every store is bounds-checked against the array and a
      store outside it is the fault [OutOfBounds].
    - [size_t] quantities are [nat]: every subtraction the code performs on
      them has a non-negative result on the paths that reach it.
    - [isalnum] and [toupper] are those of the "C" locale (the program never
      calls [setlocale]), on the byte value of the character.
    - libc and libcurl are not part of the program.  [strncpy], [memcpy],
      [printf] and [getopt] follow their C and POSIX descriptions; of
      libcurl the model keeps what [main] relies on: a transfer hands zero or
      more chunks to the write callback, then yields a [CURLcode] and a
      response code.  What the network answers is a parameter of [main]. *)

From Stdlib Require Import Ascii String ZArith Lia.
From stdpp Require Import base list.

Local Open Scope nat_scope.
Local Open Scope list_scope.

(** ** Characters and C strings *)

Definition NUL : ascii := "000"%char.
Definition dquote : ascii := "034"%char.

Definition is_nul (c : ascii) : bool := nat_of_ascii c =? 0.

Definition lit (s : string) : list ascii := list_ascii_of_string s.

Definition strlen (s : list ascii) : nat := length s.

(** [sizeof] of a string literal counts its terminator. *)
Definition sizeof_lit (s : list ascii) : nat := length s + 1.

(** [s[k]]; the terminator is what sits at index [strlen s]. *)
Definition char_at (s : list ascii) (k : nat) : ascii := nth k s NUL.

Definition isdigit (c : ascii) : bool :=
  let n := nat_of_ascii c in (48 <=? n) && (n <=? 57).
Definition isupper (c : ascii) : bool :=
  let n := nat_of_ascii c in (65 <=? n) && (n <=? 90).
Definition islower (c : ascii) : bool :=
  let n := nat_of_ascii c in (97 <=? n) && (n <=? 122).
Definition isalpha (c : ascii) : bool := isupper c || islower c.
Definition isalnum (c : ascii) : bool := isalpha c || isdigit c.
Definition toupper (c : ascii) : ascii :=
  if islower c then ascii_of_nat (nat_of_ascii c - 32) else c.

(** ** Constants of main.c *)

Definition URL_PREFIX_TAF : list ascii :=
  lit "http://tgftp.nws.noaa.gov/data/forecasts/taf/stations/".
Definition URL_PREFIX_DECODED : list ascii :=
  lit "http://tgftp.nws.noaa.gov/data/observations/metar/decoded/".
Definition URL_PREFIX_METAR : list ascii :=
  lit "http://tgftp.nws.noaa.gov/data/observations/metar/stations/".
Definition URL_EXTENSION : list ascii := lit ".TXT".

Definition STATION_ID_LEN : nat := 4.
Definition DEFAULT_STATION_PREFIX : list ascii := lit "K".
Definition DEFAULT_STATION_PREFIX_LEN : nat := sizeof_lit DEFAULT_STATION_PREFIX - 1.
Definition HTTP_RESPONSE_NOT_FOUND : Z := 404.
Definition REQUEST_TIMEOUT : Z := 3.

Definition LONGEST_URL_PREFIX : list ascii := URL_PREFIX_METAR.
Definition URL_BUFFER_LEN : nat :=
  (sizeof_lit LONGEST_URL_PREFIX - 1) + STATION_ID_LEN + (sizeof_lit URL_EXTENSION - 1) + 1.

(** sysexits.h *)
Definition EX_OK : Z := 0.
Definition EX_USAGE : Z := 64.
Definition EX_SOFTWARE : Z := 70.

Inductive urlType := METAR | TAF | Decoded.

(** ** Standard error *)

Inductive diag :=
  | Warnx (msg : list ascii)        (* one warnx(3) line *)
  | GetoptError (c : ascii)         (* getopt(3)'s own complaint about option c *)
  | UsageText                       (* the fprintf in usage() *)
  | AssertionLine (expr : list ascii).  (* the line a failing assert(3) writes *)

Definition MSG_LENGTH : list ascii :=
  lit "Station ID must be either three or four characters long.".
Definition MSG_ALNUM : list ascii :=
  lit "Station ID must contain only alphanumeric characters.".

(** ** Character arrays *)

Definition cell := option ascii.
Definition buffer := list cell.

(** [char url[n];] *)
Definition uninitialized (n : nat) : buffer := replicate n None.

Definition cells (s : list ascii) : buffer := Some <$> s.

(** The C string stored at the start of an array; [None] when the scan meets
    an indeterminate cell or leaves the array before a terminator. *)
Fixpoint read_cstring (mem : buffer) : option (list ascii) :=
  match mem with
  | [] => None
  | None :: _ => None
  | Some c :: rest =>
      if is_nul c then Some [] else cons c <$> read_cstring rest
  end.

(** ** A function body: state, early [return], faults *)

Inductive fault :=
  | OutOfBounds          (* a store outside the array *)
  | AssertionFailed      (* assert(3) aborts *)
  | NoReturn.            (* the end of a non-void function is reached *)

Inductive step (A : Type) :=
  | Val (a : A)          (* fall through to the next statement *)
  | Ret (b : bool)       (* [return b;] *)
  | Crash (f : fault).
Arguments Val {A} a.
Arguments Ret {A} b.
Arguments Crash {A} f.

Record frame := Frame { buf : buffer; err : list diag }.

Definition M (A : Type) : Type := frame -> step A * frame.

Definition ret {A} (a : A) : M A := fun fr => (Val a, fr).

Definition bind {A B} (m : M A) (k : A -> M B) : M B := fun fr =>
  match m fr with
  | (Val a, fr') => k a fr'
  | (Ret b, fr') => (Ret b, fr')
  | (Crash f, fr') => (Crash f, fr')
  end.

Notation "m >> k" := (bind m (fun _ => k))
  (at level 62, right associativity).

Definition return_ {A} (b : bool) : M A := fun fr => (Ret b, fr).

Definition warnx (msg : list ascii) : M unit := fun fr =>
  (Val tt, Frame (buf fr) (err fr ++ [Warnx msg])).

(** [assert(c);] where [expr] is the text of the asserted expression: a
    failing assertion writes its line to standard error and aborts. *)
Definition assert (c : bool) (expr : list ascii) : M unit := fun fr =>
  if c then (Val tt, fr)
  else (Crash AssertionFailed, Frame (buf fr) (err fr ++ [AssertionLine expr])).

Definition when (c : bool) (m : M unit) : M unit := if c then m else ret tt.

Fixpoint for_ {A} (xs : list A) (body : A -> M unit) : M unit :=
  match xs with
  | [] => ret tt
  | x :: xs' => body x >> for_ xs' body
  end.

(** [buf[k] = c;] *)
Definition store (k : nat) (c : ascii) : M unit := fun fr =>
  if k <? length (buf fr)
  then (Val tt, Frame (<[k := Some c]> (buf fr)) (err fr))
  else (Crash OutOfBounds, fr).

(** What [strncpy] puts into its [n] destination bytes: the source up to its
    terminator, then NULs. *)
Definition strncpy_image (src : list ascii) (n : nat) : list ascii :=
  take n (src ++ replicate n NUL).

Definition write_block (off : nat) (bytes : list ascii) : M unit := fun fr =>
  if off + length bytes <=? length (buf fr)
  then (Val tt,
        Frame (take off (buf fr) ++ cells bytes ++ drop (off + length bytes) (buf fr))
              (err fr))
  else (Crash OutOfBounds, fr).

(** [strncpy(buf + off, src, n);] *)
Definition strncpy (off : nat) (src : list ascii) (n : nat) : M unit :=
  write_block off (strncpy_image src n).

(** [memcpy(buf + off, src, n);] for a string literal [src] and
    [n <= sizeof src]. *)
Definition memcpy (off : nat) (src : list ascii) (n : nat) : M unit :=
  write_block off (take n (src ++ [NUL])).

(** The [switch] over the request kind; its [default:] is not reachable for
    a value of the enumeration. *)
Definition url_prefix (type : urlType) : list ascii :=
  match type with
  | METAR => URL_PREFIX_METAR
  | TAF => URL_PREFIX_TAF
  | Decoded => URL_PREFIX_DECODED
  end.

(** ** formURL *)

Definition formURL_body (bufLen : nat) (type : urlType) (station : list ascii) : M unit :=
  (* Ensure the station is a valid length *)
  let stationLen := strlen station in
  when (negb (stationLen =? STATION_ID_LEN) &&
        negb (stationLen =? STATION_ID_LEN - DEFAULT_STATION_PREFIX_LEN))
    (warnx MSG_LENGTH >> return_ false) >>
  (* Copy the first part of the URL *)
  let prefix := url_prefix type in
  strncpy 0 prefix bufLen >>
  let written := strlen prefix in
  (* Transfer the station id from end to beginning, simultaneously capitalizing *)
  for_ (seq 1 stationLen) (fun i =>
    when (negb (isalnum (char_at station (stationLen - i))))
      (warnx MSG_ALNUM >> return_ false) >>
    store ((written + STATION_ID_LEN) - i) (toupper (char_at station (stationLen - i)))) >>
  (* If it is a character short, prepend the 'K' *)
  when (stationLen =? STATION_ID_LEN - DEFAULT_STATION_PREFIX_LEN)
    (memcpy written DEFAULT_STATION_PREFIX DEFAULT_STATION_PREFIX_LEN) >>
  let written := written + STATION_ID_LEN in
  (* Append the extension *)
  assert (written + sizeof_lit URL_EXTENSION <=? bufLen)
         (lit "bufLen >= written + sizeof(URL_EXTENSION)") >>
  strncpy written URL_EXTENSION (sizeof_lit URL_EXTENSION) >>
  return_ true.

Inductive outcome :=
  | Returns (b : bool)
  | Faults (f : fault).

(** A call of [formURL]: what it returns, the array afterwards, and the lines
    it sent to standard error. *)
Definition formURL (url : buffer) (bufLen : nat) (type : urlType) (station : list ascii)
  : outcome * buffer * list diag :=
  match formURL_body bufLen type station (Frame url []) with
  | (Val _, fr) => (Faults NoReturn, buf fr, err fr)
  | (Ret b, fr) => (Returns b, buf fr, err fr)
  | (Crash f, fr) => (Faults f, buf fr, err fr)
  end.

(** The URL the caller reads back from the array after a successful call. *)
Definition url_of (url : buffer) : option (list ascii) := read_cstring url.

(** ** printData *)

(** What [printf("%s", p)] prints: the bytes at [p] up to the first NUL.
    [mem] is the memory from [p] on, as far as it is known. *)
Fixpoint c_str (mem : list ascii) : list ascii :=
  match mem with
  | [] => []
  | c :: rest => if is_nul c then [] else c :: c_str rest
  end.

(** The write callback: [contents] is the memory at the pointer libcurl passes,
    of which the first [size * nmemb] bytes are the data received.  Returns the
    new standard output and the byte count reported back to libcurl. *)
Definition printData (contents : list ascii) (size nmemb : nat) (stdout : list ascii)
  : list ascii * nat :=
  (stdout ++ c_str contents, size * nmemb).

(** ** libcurl as seen by main *)

Definition CURLE_OK : Z := 0.
Definition CURLE_HTTP_RETURNED_ERROR : Z := 22.
Definition CURLE_WRITE_ERROR : Z := 23.
Definition CURLE_OPERATION_TIMEDOUT : Z := 28.
Definition CURLE_REMOTE_FILE_NOT_FOUND : Z := 78.

(** One invocation of the write callback. *)
Record chunk := Chunk { contents : list ascii; size : nat; nmemb : nat }.

(** The bytes of a chunk that are response data. *)
Definition chunk_data (ch : chunk) : list ascii := take (size ch * nmemb ch) (contents ch).

(** What the network does with one request: the chunks handed to the write
    callback, the [CURLcode] of the transfer and its response code. *)
Record reply := Reply { delivered : list chunk; result : Z; status : Z }.

(** The options of the easy handle that main sets. *)
Record CURL := Handle {
  CURLOPT_URL : list ascii;
  CURLOPT_FAILONERROR : bool;
  CURLOPT_TIMEOUT : Z;
  CURLOPT_FOLLOWLOCATION : bool
}.

Definition fresh_handle : CURL := Handle [] false 0 false.

(** [curl_easy_setopt(h, CURLOPT_URL, u)] *)
Definition with_URL (u : list ascii) (h : CURL) : CURL :=
  Handle u (CURLOPT_FAILONERROR h) (CURLOPT_TIMEOUT h) (CURLOPT_FOLLOWLOCATION h).

(** libcurl calls the write callback once per chunk and abandons the transfer
    when the callback reports a count other than [size * nmemb]. *)
Fixpoint deliver (chunks : list chunk) (stdout : list ascii) : list ascii * bool :=
  match chunks with
  | [] => (stdout, true)
  | ch :: rest =>
      let '(stdout', taken) := printData (contents ch) (size ch) (nmemb ch) stdout in
      if taken =? size ch * nmemb ch then deliver rest stdout' else (stdout', false)
  end.

(** ** getopt(3), POSIX behaviour: options are scanned up to the first
    operand, a lone "-" is an operand, "--" ends the options and is skipped. *)

Inductive opt_result :=
  | Opt (c : ascii)        (* a character of the option string *)
  | BadOpt (c : ascii).    (* '?', after a complaint about c *)

Definition returned (r : opt_result) : ascii :=
  match r with Opt c => c | BadOpt _ => "?"%char end.

Definition getopt_char (optstring : list ascii) (c : ascii) : opt_result :=
  if existsb (Ascii.eqb c) optstring && negb (Ascii.eqb c ":"%char)
  then Opt c else BadOpt c.

(** The values successive calls return before -1, and the operands left at
    [argv + optind] then.  [args] is [argv] without the program name. *)
Fixpoint getopt_scan (optstring : list ascii) (args : list (list ascii))
  : list opt_result * list (list ascii) :=
  match args with
  | [] => ([], [])
  | arg :: rest =>
      match arg with
      | dash :: c :: cs =>
          if Ascii.eqb dash "-"%char then
            if Ascii.eqb c "-"%char && match cs with [] => true | _ => false end
            then ([], rest)
            else let '(rs, operands) := getopt_scan optstring rest in
                 (map (getopt_char optstring) (c :: cs) ++ rs, operands)
          else ([], args)
      | _ => ([], args)
      end
  end.

(** ** main *)

Inductive termination :=
  | Exit (code : Z)
  | Abnormal (f : fault).

(** The [while ((ch = getopt(...)) != -1) switch (ch)] loop: [None] is the
    [default:] branch, [return usage()]. *)
Fixpoint main_options (results : list opt_result) (decoded tafs : bool)
  : (bool * bool) + ascii :=
  match results with
  | [] => inl (decoded, tafs)
  | r :: rest =>
      if Ascii.eqb (returned r) "d"%char then main_options rest true tafs
      else if Ascii.eqb (returned r) "t"%char then main_options rest decoded true
      else inr (match r with Opt c | BadOpt c => c end)
  end.

Definition MSG_NO_ARGUMENT : list ascii := lit "At least one argument is required".

Definition MSG_NOT_FOUND (station : list ascii) : list ascii :=
  lit "Station ID " ++ [dquote] ++ station ++ [dquote] ++ lit " not found".

Definition MSG_UNABLE (station : list ascii) : list ascii :=
  lit "Unable to fetch information for station ID " ++ [dquote] ++ station ++ [dquote].

Section Main.

(** The network: a state [World] and what it answers to a request. *)
Variable World : Type.
Variable transport : World -> CURL -> reply * World.
Variable curl_easy_strerror : Z -> list ascii.

Record proc := Proc {
  stdout : list ascii;
  stderr : list diag;
  curl : CURL;                 (* the easy handle *)
  response_code : Z;           (* CURLINFO_RESPONSE_CODE of the last transfer *)
  sent : list CURL;            (* the requests performed so far *)
  world : World
}.

Definition complain (ds : list diag) (p : proc) : proc :=
  Proc (stdout p) (stderr p ++ ds) (curl p) (response_code p) (sent p) (world p).

Definition set_handle (h : CURL) (p : proc) : proc :=
  Proc (stdout p) (stderr p) h (response_code p) (sent p) (world p).

(** [curl_easy_setopt(curl, CURLOPT_URL, url)] *)
Definition setopt_URL (u : list ascii) (p : proc) : proc :=
  set_handle (with_URL u (curl p)) p.

(** [curl_easy_perform(curl)], with [printData] as the write callback. *)
Definition curl_easy_perform (p : proc) : Z * proc :=
  let '(r, w) := transport (world p) (curl p) in
  let '(out, complete) := deliver (delivered r) (stdout p) in
  (if complete then result r else CURLE_WRITE_ERROR,
   Proc out (stderr p) (curl p) (status r) (sent p ++ [curl p]) w).

(** The secondary request of one iteration: [if (tafs) { ... }]. *)
Definition fetch_taf (url : buffer) (station : list ascii) (p : proc) : fault + proc :=
  match formURL url URL_BUFFER_LEN TAF station with
  | (Faults f, _, _) => inl f
  | (Returns false, _, e) => inr (complain e p)
  | (Returns true, url, e) =>
      match url_of url with
      | None => inl OutOfBounds
      | Some u => inr (snd (curl_easy_perform (setopt_URL u (complain e p))))
      end
  end.

(** One iteration of the [for] loop over the station arguments; [inr] is
    reaching the end of the body or a [continue]. *)
Definition main_loop_body (decoded tafs : bool) (station : list ascii) (p : proc)
  : fault + proc :=
  let url := uninitialized URL_BUFFER_LEN in
  match formURL url URL_BUFFER_LEN (if decoded then Decoded else METAR) station with
  | (Faults f, _, _) => inl f
  | (Returns false, _, e) => inr (complain e p)
  | (Returns true, url, e) =>
      match url_of url with
      | None => inl OutOfBounds
      | Some u =>
          let '(res, p) := curl_easy_perform (setopt_URL u (complain e p)) in
          let response := response_code p in
          if (res =? CURLE_REMOTE_FILE_NOT_FOUND)%Z || (response =? HTTP_RESPONSE_NOT_FOUND)%Z
          then inr (complain [Warnx (MSG_NOT_FOUND station)] p)
          else if negb (res =? CURLE_OK)%Z
          then inr (complain [Warnx (curl_easy_strerror res); Warnx (MSG_UNABLE station)] p)
          else if tafs then fetch_taf url station p
          else inr p
      end
  end.

Fixpoint main_loop (decoded tafs : bool) (stations : list (list ascii)) (p : proc)
  : fault + proc :=
  match stations with
  | [] => inr p
  | station :: rest =>
      match main_loop_body decoded tafs station p with
      | inl f => inl f
      | inr p' => main_loop decoded tafs rest p'
      end
  end.

Definition usage (p : proc) : termination * proc :=
  (Exit EX_USAGE, complain [UsageText] p).

(** [argv] includes the program name; [curl_available] tells whether
    [curl_easy_init] returns a handle. *)
Definition main (argv : list (list ascii)) (curl_available : bool) (w : World)
  : termination * proc :=
  let p := Proc [] [] fresh_handle 0 [] w in
  let '(results, operands) := getopt_scan (lit "dt") (tail argv) in
  match main_options results false false with
  | inr c => usage (complain [GetoptError c] p)
  | inl (decoded, tafs) =>
      if length operands <? 1 then usage (complain [Warnx MSG_NO_ARGUMENT] p)
      else if negb curl_available then (Exit EX_SOFTWARE, p)
      else
        let p := set_handle (Handle [] true REQUEST_TIMEOUT true) p in
        match main_loop decoded tafs operands p with
        | inl f => (Abnormal f, p)
        | inr p' => (Exit EX_OK, p')
        end
  end.

End Main.

Arguments Proc {World}.
Arguments complain {World}.
Arguments set_handle {World}.
Arguments setopt_URL {World}.
Arguments curl_easy_perform {World}.
Arguments fetch_taf {World}.
Arguments main_loop_body {World}.
Arguments main_loop {World}.
Arguments usage {World}.
Arguments main {World}.
Arguments stdout {World} p.
Arguments stderr {World} p.
Arguments curl {World} p.
Arguments response_code {World} p.
Arguments sent {World} p.
Arguments world {World} p.

(** ** Vocabulary of the specification *)

(** A station identifier the URL builder accepts: 4 or 3 characters, all of
    them alphanumeric. *)
Definition station_ok (station : list ascii) : bool :=
  ((strlen station =? STATION_ID_LEN) ||
   (strlen station =? STATION_ID_LEN - DEFAULT_STATION_PREFIX_LEN)) &&
  forallb isalnum station.

(** The normalised 4-character station field. *)
Definition station_field (station : list ascii) : list ascii :=
  (if strlen station =? STATION_ID_LEN - DEFAULT_STATION_PREFIX_LEN
   then DEFAULT_STATION_PREFIX else []) ++ map toupper station.

Definition resource_url (type : urlType) (station : list ascii) : list ascii :=
  url_prefix type ++ station_field station ++ URL_EXTENSION.

(** The diagnostic the URL builder owes a rejected station. *)
Definition validation_error (station : list ascii) : list ascii :=
  if (strlen station =? STATION_ID_LEN) ||
     (strlen station =? STATION_ID_LEN - DEFAULT_STATION_PREFIX_LEN)
  then MSG_ALNUM else MSG_LENGTH.

(** A chunk of text: no NUL among the data bytes, and a NUL right after them. *)
Definition terminated_text (ch : chunk) : bool :=
  (size ch * nmemb ch <=? length (contents ch)) &&
  forallb (fun c => negb (is_nul c)) (chunk_data ch) &&
  match drop (size ch * nmemb ch) (contents ch) with
  | c :: _ => is_nul c
  | [] => false
  end.

(** The response body of a transfer: the data bytes of its chunks. *)
Definition body (r : reply) : list ascii := concat (map chunk_data (delivered r)).

(** What [printData] writes for the chunks of a transfer. *)
Definition printed (r : reply) : list ascii :=
  concat (map (fun ch => c_str (contents ch)) (delivered r)).

(** [getopt] met a character that is not in the option string. *)
Definition unrecognized (r : opt_result) : bool :=
  match r with BadOpt _ => true | Opt _ => false end.

(** What [getopt] can return for the option string "dt". *)
Definition option_wf (r : opt_result) : Prop :=
  match r with
  | Opt c => c = "d"%char \/ c = "t"%char
  | BadOpt _ => True
  end.

(** A transfer the loop treats as a success: neither not-found nor any other
    failure. *)
Definition succeeded (r : reply) : bool :=
  negb ((result r =? CURLE_REMOTE_FILE_NOT_FOUND)%Z ||
        (status r =? HTTP_RESPONSE_NOT_FOUND)%Z) &&
  (result r =? CURLE_OK)%Z.

Section Transfers.

Variable World : Type.
Variable transport : World -> CURL -> reply * World.

(** The transfers a run owes its station arguments, in order: for each
    accepted station the primary request and, with -t after a successful
    primary, the forecast request.  [h] carries the fixed options. *)
Fixpoint transfers (h : CURL) (decoded tafs : bool) (stations : list (list ascii))
    (w : World) : list (CURL * reply) :=
  match stations with
  | [] => []
  | station :: rest =>
      if station_ok station then
        let q1 := with_URL (resource_url (if decoded then Decoded else METAR) station) h in
        let '(r1, w1) := transport w q1 in
        if succeeded r1 && tafs then
          let q2 := with_URL (resource_url TAF station) h in
          let '(r2, w2) := transport w1 q2 in
          (q1, r1) :: (q2, r2) :: transfers h decoded tafs rest w2
        else (q1, r1) :: transfers h decoded tafs rest w1
      else transfers h decoded tafs rest w
  end.



End Transfers.

Arguments transfers {World}.

(** ** A scripted network, for concrete runs *)

Definition CURLE_COULDNT_CONNECT : Z := 7.

(** Answers the requests with the replies of a script, in order. *)
Definition scripted (w : list reply) (h : CURL) : reply * list reply :=
  match w with
  | r :: w' => (r, w')
  | [] => (Reply [] CURLE_COULDNT_CONNECT 0, [])
  end.

(** The process as [main] enters its loop. *)
Definition entering_loop (w : list reply) : proc (list reply) :=
  Proc [] [] (Handle [] true REQUEST_TIMEOUT true) 0%Z [] w.

Definition strerror_text (res : Z) : list ascii := lit "transfer failed".

(** A chunk as libcurl hands over text: the bytes, a NUL behind them. *)
Definition text (s : string) : chunk := Chunk (lit s ++ [NUL]) 1 (length (lit s)).


(** ** More vocabulary *)

(** An upper-case letter or a digit. *)
Definition upper_or_digit (c : ascii) : bool := isupper c || isdigit c.

(** A request for a bulletin: an address made of one of the three prefixes, a
    field of four upper-case letters or digits and the extension, sent with
    the options [main] sets once. *)
Definition bulletin_request (q : CURL) : Prop :=
  (exists type field,
     CURLOPT_URL q = url_prefix type ++ field ++ URL_EXTENSION /\
     length field = STATION_ID_LEN /\
     forallb upper_or_digit field = true) /\
  CURLOPT_FAILONERROR q = true /\
  CURLOPT_TIMEOUT q = REQUEST_TIMEOUT /\
  CURLOPT_FOLLOWLOCATION q = true.

(** [getopt] returned the character [c]. *)
Definition selects (c : ascii) (r : opt_result) : bool := Ascii.eqb (returned r) c.
(** ** Facts about the constants *)

Lemma URL_BUFFER_LEN_value : URL_BUFFER_LEN = 68.
Proof. reflexivity. Qed.

Lemma url_prefix_fits (type : urlType) :
  strlen (url_prefix type) + STATION_ID_LEN + sizeof_lit URL_EXTENSION <= URL_BUFFER_LEN.
Proof. destruct type; vm_compute; lia. Qed.

Lemma url_prefix_no_nul (type : urlType) :
  forallb (fun c => negb (is_nul c)) (url_prefix type) = true.
Proof. destruct type; reflexivity. Qed.

(** ** Facts about the "C" locale *)

Lemma toupper_not_nul (c : ascii) : isalnum c = true -> is_nul (toupper c) = false.
Proof.
  destruct c as [[] [] [] [] [] [] [] []]; vm_compute; intros; congruence.
Qed.

Lemma toupper_isalnum (c : ascii) : isalnum c = true -> isalnum (toupper c) = true.
Proof.
  destruct c as [[] [] [] [] [] [] [] []]; vm_compute; intros; congruence.
Qed.

Lemma toupper_idempotent (c : ascii) : toupper (toupper c) = toupper c.
Proof.
  destruct c as [[] [] [] [] [] [] [] []]; reflexivity.
Qed.

(** ** Reading a C string back from an array *)

Lemma read_cstring_terminated (s rest : list ascii) :
  forallb (fun c => negb (is_nul c)) s = true ->
  read_cstring (cells (s ++ NUL :: rest)) = Some s.
Proof.
  induction s as [|c s IH]; intros Hs.
  - reflexivity.
  - cbn in Hs. apply andb_prop in Hs as [Hc Hs].
    apply negb_true_iff in Hc.
    cbn. rewrite Hc. unfold cells in IH. rewrite (IH Hs). reflexivity.
Qed.

Lemma strncpy_image_split (s : list ascii) (n : nat) :
  length s < n ->
  strncpy_image s n = s ++ NUL :: replicate (n - length s - 1) NUL.
Proof.
  intros Hlt. unfold strncpy_image.
  rewrite take_app_ge by lia.
  replace (n - length s) with (S (n - length s - 1)) by lia.
  destruct n as [|n]; [lia|].
  cbn [replicate take]. rewrite take_replicate.
  do 3 f_equal. lia.
Qed.

Lemma read_cstring_image (s : list ascii) (n : nat) :
  forallb (fun c => negb (is_nul c)) s = true ->
  length s < n ->
  read_cstring (cells (strncpy_image s n)) = Some s.
Proof.
  intros Hs Hlt. rewrite strncpy_image_split by exact Hlt.
  apply read_cstring_terminated, Hs.
Qed.

Lemma strncpy_image_length (s : list ascii) (n : nat) : length (strncpy_image s n) = n.
Proof.
  unfold strncpy_image. rewrite length_take, length_app, length_replicate. lia.
Qed.

(** ** Stepping through a body *)

Lemma bind_val {A B} (m : M A) (k : A -> M B) (fr fr' : frame) (a : A) :
  m fr = (Val a, fr') -> bind m k fr = k a fr'.
Proof. intros H. unfold bind. rewrite H. reflexivity. Qed.

(** [strncpy(buf, src, bufLen)] with [bufLen] the size of the array fills
    all of it. *)
Lemma strncpy_whole (src : list ascii) (n : nat) (fr : frame) :
  length (buf fr) = n ->
  strncpy 0 src n fr = (Val tt, Frame (cells (strncpy_image src n)) (err fr)).
Proof.
  intros Hn. unfold strncpy, write_block.
  rewrite strncpy_image_length, Hn. cbn [Nat.add].
  rewrite Nat.leb_refl. cbn [take app].
  rewrite drop_ge by lia. rewrite app_nil_r. reflexivity.
Qed.

(** ** formURL on the array of [main] *)

Ltac enter_formURL Hlen :=
  unfold formURL, formURL_body;
  erewrite (bind_val (when _ _)) by reflexivity;
  erewrite (bind_val (strncpy _ _ _)) by (apply strncpy_whole; exact Hlen).

Lemma formURL_four (url : buffer) (type : urlType) (station : list ascii) :
  length url = URL_BUFFER_LEN ->
  strlen station = STATION_ID_LEN ->
  forallb isalnum station = true ->
  formURL url URL_BUFFER_LEN type station =
    (Returns true,
     cells (strncpy_image (url_prefix type ++ map toupper station ++ URL_EXTENSION)
                          URL_BUFFER_LEN),
     []).
Proof.
  intros Hlen Hst Hal.
  destruct station as [|a [|b [|c [|d [|e rest]]]]]; try discriminate Hst.
  cbn in Hal.
  apply andb_prop in Hal as [Ha Hal]. apply andb_prop in Hal as [Hb Hal].
  apply andb_prop in Hal as [Hc Hal]. apply andb_prop in Hal as [Hd _].
  enter_formURL Hlen.
  destruct type; cbv -[isalnum toupper]; rewrite Ha, Hb, Hc, Hd; reflexivity.
Qed.

Lemma formURL_three (url : buffer) (type : urlType) (station : list ascii) :
  length url = URL_BUFFER_LEN ->
  strlen station = STATION_ID_LEN - DEFAULT_STATION_PREFIX_LEN ->
  forallb isalnum station = true ->
  formURL url URL_BUFFER_LEN type station =
    (Returns true,
     cells (strncpy_image
              (url_prefix type ++ DEFAULT_STATION_PREFIX ++ map toupper station ++ URL_EXTENSION)
              URL_BUFFER_LEN),
     []).
Proof.
  intros Hlen Hst Hal.
  destruct station as [|a [|b [|c [|d rest]]]]; try discriminate Hst.
  cbn in Hal.
  apply andb_prop in Hal as [Ha Hal]. apply andb_prop in Hal as [Hb Hal].
  apply andb_prop in Hal as [Hc _].
  enter_formURL Hlen.
  destruct type; cbv -[isalnum toupper]; rewrite Ha, Hb, Hc; reflexivity.
Qed.

(** The length test comes first and leaves the array untouched, whatever its
    size. *)
Lemma formURL_bad_length (url : buffer) (bufLen : nat) (type : urlType) (station : list ascii) :
  strlen station <> STATION_ID_LEN ->
  strlen station <> STATION_ID_LEN - DEFAULT_STATION_PREFIX_LEN ->
  formURL url bufLen type station = (Returns false, url, [Warnx MSG_LENGTH]).
Proof.
  intros H4 H3. unfold formURL, formURL_body.
  apply Nat.eqb_neq in H4, H3. rewrite H4, H3. reflexivity.
Qed.

Lemma formURL_bad_char (url : buffer) (type : urlType) (station : list ascii) :
  length url = URL_BUFFER_LEN ->
  strlen station = STATION_ID_LEN \/ strlen station = STATION_ID_LEN - DEFAULT_STATION_PREFIX_LEN ->
  forallb isalnum station = false ->
  exists url',
    formURL url URL_BUFFER_LEN type station = (Returns false, url', [Warnx MSG_ALNUM]) /\
    length url' = URL_BUFFER_LEN.
Proof.
  intros Hlen [Hst|Hst] Hal.
  - destruct station as [|a [|b [|c [|d [|e rest]]]]]; try discriminate Hst.
    enter_formURL Hlen. cbn in Hal.
    destruct type; cbv -[isalnum toupper];
      destruct (isalnum d), (isalnum c), (isalnum b), (isalnum a);
      try discriminate Hal; eexists; split; reflexivity.
  - destruct station as [|a [|b [|c [|d rest]]]]; try discriminate Hst.
    enter_formURL Hlen. cbn in Hal.
    destruct type; cbv -[isalnum toupper];
      destruct (isalnum c), (isalnum b), (isalnum a);
      try discriminate Hal; eexists; split; reflexivity.
Qed.

(** ** formURL, by validity of the station *)

Lemma station_ok_length (station : list ascii) :
  station_ok station = true ->
  strlen station = STATION_ID_LEN \/
  strlen station = STATION_ID_LEN - DEFAULT_STATION_PREFIX_LEN.
Proof.
  unfold station_ok. intros H. apply andb_prop in H as [H _].
  apply orb_prop in H as [H|H]; apply Nat.eqb_eq in H; auto.
Qed.

Lemma station_field_length (station : list ascii) :
  station_ok station = true -> length (station_field station) = STATION_ID_LEN.
Proof.
  intros H. unfold station_field.
  destruct (station_ok_length _ H) as [E|E]; unfold strlen in *;
    rewrite length_app, length_map, E; reflexivity.
Qed.

Lemma station_field_no_nul (station : list ascii) :
  forallb isalnum station = true ->
  forallb (fun c => negb (is_nul c)) (station_field station) = true.
Proof.
  intros H. unfold station_field. rewrite forallb_app. apply andb_true_intro. split.
  - destruct (_ =? _); reflexivity.
  - induction station as [|c s IH]; [reflexivity|].
    cbn in H. apply andb_prop in H as [Hc Hs].
    cbn. rewrite (toupper_not_nul _ Hc). cbn. auto.
Qed.

Lemma resource_url_no_nul (type : urlType) (station : list ascii) :
  forallb isalnum station = true ->
  forallb (fun c => negb (is_nul c)) (resource_url type station) = true.
Proof.
  intros H. unfold resource_url. rewrite !forallb_app.
  rewrite url_prefix_no_nul, (station_field_no_nul _ H). reflexivity.
Qed.

Lemma resource_url_length (type : urlType) (station : list ascii) :
  station_ok station = true ->
  strlen (resource_url type station) =
    strlen (url_prefix type) + STATION_ID_LEN + strlen URL_EXTENSION.
Proof.
  intros H. unfold resource_url, strlen.
  rewrite !length_app, (station_field_length _ H). lia.
Qed.

Lemma formURL_valid (url : buffer) (type : urlType) (station : list ascii) :
  length url = URL_BUFFER_LEN ->
  station_ok station = true ->
  formURL url URL_BUFFER_LEN type station =
    (Returns true, cells (strncpy_image (resource_url type station) URL_BUFFER_LEN), []).
Proof.
  intros Hlen Hok. pose proof (station_ok_length _ Hok) as Hl.
  unfold station_ok in Hok. apply andb_prop in Hok as [_ Hal].
  unfold resource_url, station_field.
  destruct Hl as [E|E].
  - rewrite (formURL_four _ _ _ Hlen E Hal). rewrite E. reflexivity.
  - rewrite (formURL_three _ _ _ Hlen E Hal). rewrite E. cbn [Nat.eqb].
    rewrite <- app_assoc. reflexivity.
Qed.

Lemma formURL_invalid (url : buffer) (type : urlType) (station : list ascii) :
  length url = URL_BUFFER_LEN ->
  station_ok station = false ->
  exists url',
    formURL url URL_BUFFER_LEN type station =
      (Returns false, url', [Warnx (validation_error station)]) /\
    length url' = URL_BUFFER_LEN.
Proof.
  intros Hlen Hok. unfold station_ok in Hok. unfold validation_error.
  destruct (strlen station =? STATION_ID_LEN) eqn:E4;
    [|destruct (strlen station =? STATION_ID_LEN - DEFAULT_STATION_PREFIX_LEN) eqn:E3].
  - apply Nat.eqb_eq in E4. cbn in Hok. cbn [orb].
    apply formURL_bad_char; auto.
  - apply Nat.eqb_eq in E3. cbn in Hok. cbn [orb].
    apply formURL_bad_char; auto.
  - apply Nat.eqb_neq in E4, E3. cbn [orb].
    exists url. split; [|exact Hlen]. apply formURL_bad_length; assumption.
Qed.

Lemma url_of_valid (type : urlType) (station : list ascii) :
  station_ok station = true ->
  url_of (cells (strncpy_image (resource_url type station) URL_BUFFER_LEN)) =
    Some (resource_url type station).
Proof.
  intros Hok. unfold url_of. apply read_cstring_image.
  - apply resource_url_no_nul. unfold station_ok in Hok.
    apply andb_prop in Hok as [_ H]. exact H.
  - pose proof (resource_url_length type station Hok) as Hl.
    pose proof (url_prefix_fits type) as Hf.
    unfold strlen, sizeof_lit in *. lia.
Qed.

Lemma length_uninitialized (n : nat) : length (uninitialized n) = n.
Proof. apply length_replicate. Qed.

Lemma length_cells (s : list ascii) : length (cells s) = length s.
Proof. apply length_fmap. Qed.

(** ** printData and the delivery of chunks *)

Lemma c_str_terminated (s rest : list ascii) (z : ascii) :
  forallb (fun c => negb (is_nul c)) s = true ->
  is_nul z = true ->
  c_str (s ++ z :: rest) = s.
Proof.
  intros Hs Hz. induction s as [|c s IH]; cbn.
  - rewrite Hz. reflexivity.
  - cbn in Hs. apply andb_prop in Hs as [Hc Hs].
    apply negb_true_iff in Hc. rewrite Hc, (IH Hs). reflexivity.
Qed.

Lemma c_str_text (ch : chunk) :
  terminated_text ch = true -> c_str (contents ch) = chunk_data ch.
Proof.
  unfold terminated_text, chunk_data. intros H.
  apply andb_prop in H as [H Hz]. apply andb_prop in H as [_ Hs].
  rewrite <- (take_drop (size ch * nmemb ch) (contents ch)) at 1.
  destruct (drop (size ch * nmemb ch) (contents ch)) as [|z rest]; [discriminate|].
  apply c_str_terminated; assumption.
Qed.

(** [printData] always reports the whole chunk, so libcurl never abandons a
    transfer on its account. *)
Lemma deliver_all (chunks : list chunk) (out : list ascii) :
  deliver chunks out =
    (out ++ concat (map (fun ch => c_str (contents ch)) chunks), true).
Proof.
  revert out. induction chunks as [|ch chunks IH]; intros out; cbn.
  - rewrite app_nil_r. reflexivity.
  - rewrite Nat.eqb_refl, IH, app_assoc. reflexivity.
Qed.

(** ** The loop *)

Lemma with_URL_with_URL (u u' : list ascii) (h : CURL) :
  with_URL u' (with_URL u h) = with_URL u' h.
Proof. reflexivity. Qed.

Section Loop.

Variable World : Type.
Variable transport : World -> CURL -> reply * World.
Variable curl_easy_strerror : Z -> list ascii.

Lemma complain_nil (p : proc World) : complain [] p = p.
Proof. destruct p. unfold complain. cbn. rewrite app_nil_r. reflexivity. Qed.

Lemma perform_eq (p : proc World) :
  curl_easy_perform transport p =
    let r := fst (transport (world p) (curl p)) in
    (result r,
     Proc (fst (deliver (delivered r) (stdout p))) (stderr p) (curl p) (status r)
          (sent p ++ [curl p]) (snd (transport (world p) (curl p)))).
Proof.
  unfold curl_easy_perform.
  destruct (transport (world p) (curl p)) as [r w]. cbn [fst snd].
  rewrite deliver_all. reflexivity.
Qed.

(** A rejected station costs one diagnostic and nothing else. *)
Lemma main_loop_body_invalid (decoded tafs : bool) (station : list ascii) (p : proc World) :
  station_ok station = false ->
  main_loop_body transport curl_easy_strerror decoded tafs station p =
    inr (complain [Warnx (validation_error station)] p).
Proof.
  intros Hbad. unfold main_loop_body.
  destruct (formURL_invalid (uninitialized URL_BUFFER_LEN)
              (if decoded then Decoded else METAR) station
              (length_uninitialized _) Hbad) as (url' & -> & _).
  reflexivity.
Qed.

(** An accepted station: the body with both calls of [formURL] resolved. *)
Lemma main_loop_body_valid (decoded tafs : bool) (station : list ascii) (p : proc World) :
  station_ok station = true ->
  main_loop_body transport curl_easy_strerror decoded tafs station p =
    let '(res, p1) :=
      curl_easy_perform transport
        (setopt_URL (resource_url (if decoded then Decoded else METAR) station) p) in
    if (res =? CURLE_REMOTE_FILE_NOT_FOUND)%Z ||
       (response_code p1 =? HTTP_RESPONSE_NOT_FOUND)%Z
    then inr (complain [Warnx (MSG_NOT_FOUND station)] p1)
    else if negb (res =? CURLE_OK)%Z
    then inr (complain [Warnx (curl_easy_strerror res); Warnx (MSG_UNABLE station)] p1)
    else if tafs
    then inr (snd (curl_easy_perform transport (setopt_URL (resource_url TAF station) p1)))
    else inr p1.
Proof.
  intros Hok. unfold main_loop_body.
  rewrite (formURL_valid _ _ _ (length_uninitialized _) Hok).
  rewrite (url_of_valid _ _ Hok), complain_nil.
  destruct (curl_easy_perform _ _) as [res p1].
  destruct (_ || _); [reflexivity|].
  destruct (negb _); [reflexivity|].
  destruct tafs; [|reflexivity].
  unfold fetch_taf.
  rewrite formURL_valid; [| rewrite length_cells; apply strncpy_image_length | exact Hok].
  rewrite (url_of_valid _ _ Hok), complain_nil. reflexivity.
Qed.

Lemma main_loop_body_continues (decoded tafs : bool) (station : list ascii) (p : proc World) :
  exists p', main_loop_body transport curl_easy_strerror decoded tafs station p = inr p'.
Proof.
  destruct (station_ok station) eqn:Hok.
  - rewrite (main_loop_body_valid _ _ _ _ Hok).
    destruct (curl_easy_perform _ _) as [res p1].
    destruct (_ || _); [eauto|]. destruct (negb _); [eauto|].
    destruct tafs; eauto.
  - rewrite (main_loop_body_invalid _ _ _ _ Hok). eauto.
Qed.

(** No station stops the loop. *)
Lemma main_loop_completes (decoded tafs : bool) (stations : list (list ascii)) (p : proc World) :
  exists p', main_loop transport curl_easy_strerror decoded tafs stations p = inr p'.
Proof.
  revert p. induction stations as [|station rest IH]; intros p; cbn.
  - eauto.
  - destruct (main_loop_body_continues decoded tafs station p) as [p1 ->]. apply IH.
Qed.


End Loop.

(** The array is exactly large enough: one cell fewer and the assertion
    fires; a wrong [bufLen] and the last copy leaves the array. *)
Example formURL_short_buffer :
  fst (fst (formURL (uninitialized 67) 67 METAR (lit "kjfk"))) = Faults AssertionFailed /\
  fst (fst (formURL (uninitialized 67) 68 METAR (lit "kjfk"))) = Faults OutOfBounds.
Proof. split; reflexivity. Qed.

(** ** Option parsing *)

Lemma getopt_char_wf (c : ascii) : option_wf (getopt_char (lit "dt") c).
Proof.
  unfold getopt_char. destruct (existsb _ _ && _) eqn:E; [|exact I].
  apply andb_prop in E as [E _]. cbn in E.
  destruct (Ascii.eqb c "d") eqn:Ed.
  - left. apply Ascii.eqb_eq, Ed.
  - destruct (Ascii.eqb c "t") eqn:Et; [|discriminate E].
    right. apply Ascii.eqb_eq, Et.
Qed.

Lemma getopt_scan_wf (args : list (list ascii)) :
  Forall option_wf (fst (getopt_scan (lit "dt") args)).
Proof.
  induction args as [|arg rest IH]; cbn [getopt_scan fst]; [constructor|].
  destruct arg as [|dash [|c cs]]; cbn [fst]; try constructor.
  destruct (Ascii.eqb dash "-"); [|constructor].
  destruct (Ascii.eqb c "-" && _); [constructor|].
  destruct (getopt_scan (lit "dt") rest) as [rs operands]. cbn [fst map app] in *.
  constructor; [apply getopt_char_wf|].
  apply Forall_app. split; [|exact IH].
  apply Forall_fmap. apply Forall_forall. intros x _. apply getopt_char_wf.
Qed.

(** The switch reaches [default:] exactly on an unrecognized option. *)
Lemma main_options_wf (results : list opt_result) (decoded tafs : bool) :
  Forall option_wf results ->
  if existsb unrecognized results
  then exists c, main_options results decoded tafs = inr c
  else exists d t, main_options results decoded tafs = inl (d, t).
Proof.
  intros Hwf. revert decoded tafs.
  induction Hwf as [|r rest Hr _ IH]; intros decoded tafs; cbn.
  - eauto.
  - destruct r as [c|c]; cbn.
    + destruct Hr as [->| ->]; cbn; apply IH.
    + eauto.
Qed.

(** ** The whole loop against the transfers it owes *)

Lemma printed_text (r : reply) :
  forallb terminated_text (delivered r) = true -> printed r = body r.
Proof.
  unfold printed, body. intros H. induction (delivered r) as [|ch chunks IH]; [reflexivity|].
  cbn in H. apply andb_prop in H as [Hch H].
  cbn. rewrite (c_str_text _ Hch), (IH H). reflexivity.
Qed.

Section Run.

Variable World : Type.
Variable transport : World -> CURL -> reply * World.
Variable curl_easy_strerror : Z -> list ascii.

Lemma perform_printed (p : proc World) :
  curl_easy_perform transport p =
    let r := fst (transport (world p) (curl p)) in
    (result r,
     Proc (stdout p ++ printed r) (stderr p) (curl p) (status r)
          (sent p ++ [curl p]) (snd (transport (world p) (curl p)))).
Proof. rewrite perform_eq. cbv zeta. rewrite deliver_all. reflexivity. Qed.

Lemma transfers_with_URL (u : list ascii) (h : CURL) (decoded tafs : bool)
    (stations : list (list ascii)) (w : World) :
  transfers transport (with_URL u h) decoded tafs stations w =
  transfers transport h decoded tafs stations w.
Proof.
  revert w. induction stations as [|station rest IH]; intros w; cbn; [reflexivity|].
  destruct (station_ok station); [|apply IH].
  rewrite !with_URL_with_URL.
  destruct (transport w _) as [r1 w1].
  destruct (succeeded r1 && tafs).
  - destruct (transport w1 _) as [r2 w2]. rewrite IH. reflexivity.
  - rewrite IH. reflexivity.
Qed.

Ltac state_fields :=
  cbn [stdout stderr curl response_code sent world
       complain set_handle setopt_URL fst snd].

Ltac next_station IH rest :=
  let p' := fresh "p'" in
  let Ho := fresh "Ho" in
  let Hs := fresh "Hs" in
  match goal with
  | |- context [main_loop _ _ _ _ rest ?q] =>
      destruct (IH q) as (p' & -> & Ho & Hs)
  end;
  exists p'; split; [reflexivity|];
  cbn [stdout stderr curl response_code sent world
       complain set_handle setopt_URL fst snd] in Ho, Hs;
  rewrite ?with_URL_with_URL, ?transfers_with_URL in Ho, Hs;
  rewrite Ho, Hs; cbn [map concat fst snd app];
  rewrite <- ?app_assoc; auto.

(** The loop performs the owed transfers, in order, and prints what each of
    them delivers. *)
Lemma main_loop_transfers (decoded tafs : bool) (stations : list (list ascii))
    (p : proc World) :
  exists p',
    main_loop transport curl_easy_strerror decoded tafs stations p = inr p' /\
    stdout p' =
      stdout p ++
      concat (map (fun t => printed (snd t))
                  (transfers transport (curl p) decoded tafs stations (world p))) /\
    sent p' =
      sent p ++ map fst (transfers transport (curl p) decoded tafs stations (world p)).
Proof.
  revert p. induction stations as [|station rest IH]; intros p.
  - exists p. cbn. rewrite !app_nil_r. auto.
  - cbn [main_loop transfers]. destruct (station_ok station) eqn:Hok.
    + rewrite (main_loop_body_valid _ _ _ _ _ _ _ Hok).
      rewrite perform_printed. cbv zeta. state_fields.
      destruct (transport (world p) _) as [r1 w1] eqn:E1. cbn [fst snd].
      unfold succeeded.
      destruct ((result r1 =? CURLE_REMOTE_FILE_NOT_FOUND)%Z ||
                (status r1 =? HTTP_RESPONSE_NOT_FOUND)%Z); cbn [negb andb].
      { next_station IH rest. }
      destruct (result r1 =? CURLE_OK)%Z; cbn [negb andb].
      2:{ next_station IH rest. }
      destruct tafs.
      * rewrite perform_printed. cbv zeta. state_fields.
        rewrite with_URL_with_URL.
        destruct (transport w1 _) as [r2 w2] eqn:E2. cbn [fst snd].
        next_station IH rest.
      * next_station IH rest.
    + rewrite (main_loop_body_invalid _ _ _ _ _ _ _ Hok).
      next_station IH rest.
Qed.

(** How [main] ends depends on its arguments and on [curl_easy_init] only. *)
Lemma main_termination (argv : list (list ascii)) (curl_available : bool) (w : World) :
  fst (main transport curl_easy_strerror argv curl_available w) =
    if existsb unrecognized (fst (getopt_scan (lit "dt") (tail argv))) ||
       (length (snd (getopt_scan (lit "dt") (tail argv))) =? 0)
    then Exit EX_USAGE
    else if curl_available then Exit EX_OK else Exit EX_SOFTWARE.
Proof.
  unfold main.
  pose proof (getopt_scan_wf (tail argv)) as Hwf.
  destruct (getopt_scan (lit "dt") (tail argv)) as [results operands]. cbn [fst snd] in *.
  pose proof (main_options_wf results false false Hwf) as Hopt.
  destruct (existsb unrecognized results).
  - destruct Hopt as [c ->]. reflexivity.
  - destruct Hopt as (d & t & ->). cbn [orb].
    destruct operands as [|station rest]; [reflexivity|].
    cbn [length Nat.ltb Nat.leb Nat.eqb].
    destruct curl_available; [|reflexivity]. cbn [negb].
    destruct (main_loop_completes _ transport curl_easy_strerror d t (station :: rest)
                (set_handle (Handle [] true REQUEST_TIMEOUT true)
                            (Proc [] [] fresh_handle 0%Z [] w))) as [p' ->].
    reflexivity.
Qed.

End Run.

(** ** Properties of the URL builder *)

Lemma formURL_true_inv (url url1 : buffer) (type : urlType) (station : list ascii)
    (e : list diag) :
  length url = URL_BUFFER_LEN ->
  formURL url URL_BUFFER_LEN type station = (Returns true, url1, e) ->
  station_ok station = true /\
  url1 = cells (strncpy_image (resource_url type station) URL_BUFFER_LEN) /\
  e = [].
Proof.
  intros Hlen H. destruct (station_ok station) eqn:Hok.
  - rewrite (formURL_valid _ _ _ Hlen Hok) in H. inversion H. auto.
  - destruct (formURL_invalid _ type _ Hlen Hok) as (url' & E & _).
    rewrite E in H. discriminate H.
Qed.

(** C1. For a station of exactly 4 alphanumeric characters, [formURL] on the
    array of [main] returns true, reports nothing, and leaves in the array the
    address of the requested kind (the raw-report directory for METAR, the
    forecast directory for TAF, the decoded-report directory for Decoded),
    then the station with every character upper-cased and in its original
    order, then ".TXT"; no lower-case letter is left in the station. *)
Theorem formURL_four_character_station (url : buffer) (type : urlType)
    (station : list ascii) :
  length url = URL_BUFFER_LEN ->
  strlen station = 4 ->
  forallb isalnum station = true ->
  exists url',
    formURL url URL_BUFFER_LEN type station = (Returns true, url', []) /\
    url_of url' =
      Some (lit match type with
                | METAR => "http://tgftp.nws.noaa.gov/data/observations/metar/stations/"
                | TAF => "http://tgftp.nws.noaa.gov/data/forecasts/taf/stations/"
                | Decoded => "http://tgftp.nws.noaa.gov/data/observations/metar/decoded/"
                end
            ++ map toupper station ++ lit ".TXT") /\
    forallb (fun c => isupper c || isdigit c) (map toupper station) = true.
Proof.
  intros Hlen H4 Hal.
  assert (Hok : station_ok station = true).
  { unfold station_ok. rewrite H4, Hal. reflexivity. }
  eexists. split; [|split].
  - apply (formURL_valid _ _ _ Hlen Hok).
  - rewrite (url_of_valid _ _ Hok). unfold resource_url, station_field.
    rewrite H4. destruct type; reflexivity.
  - clear Hok H4. induction station as [|c s IH]; [reflexivity|].
    cbn in Hal. apply andb_prop in Hal as [Hc Hs]. cbn.
    rewrite (IH Hs), andb_true_r. clear - Hc. revert Hc.
    destruct c as [[] [] [] [] [] [] [] []]; vm_compute; intros; congruence.
Qed.

Lemma formURL_four_character_station_witness :
  (exists url',
     formURL (uninitialized URL_BUFFER_LEN) URL_BUFFER_LEN METAR (lit "kjfk") =
       (Returns true, url', []) /\
     url_of url' =
       Some (lit "http://tgftp.nws.noaa.gov/data/observations/metar/stations/KJFK.TXT") /\
     forallb (fun c => isupper c || isdigit c) (lit "KJFK") = true) /\
  (exists url',
     formURL (uninitialized URL_BUFFER_LEN) URL_BUFFER_LEN TAF (lit "eGlL") =
       (Returns true, url', []) /\
     url_of url' =
       Some (lit "http://tgftp.nws.noaa.gov/data/forecasts/taf/stations/EGLL.TXT") /\
     forallb (fun c => isupper c || isdigit c) (lit "EGLL") = true) /\
  (exists url',
     formURL (uninitialized URL_BUFFER_LEN) URL_BUFFER_LEN Decoded (lit "k1a2") =
       (Returns true, url', []) /\
     url_of url' =
       Some (lit "http://tgftp.nws.noaa.gov/data/observations/metar/decoded/K1A2.TXT") /\
     forallb (fun c => isupper c || isdigit c) (lit "K1A2") = true).
Proof.
  split; [|split].
  - apply (formURL_four_character_station (uninitialized URL_BUFFER_LEN) METAR (lit "kjfk"));
      reflexivity.
  - apply (formURL_four_character_station (uninitialized URL_BUFFER_LEN) TAF (lit "eGlL"));
      reflexivity.
  - apply (formURL_four_character_station (uninitialized URL_BUFFER_LEN) Decoded (lit "k1a2"));
      reflexivity.
Defined.

(** C2. For a station of exactly 3 alphanumeric characters, [formURL] returns
    true and leaves in the array the address of the requested kind (the
    raw-report directory for METAR, the forecast directory for TAF, the
    decoded-report directory for Decoded), then 'K', then the station
    upper-cased, then ".TXT"; the station field is 4 characters long and holds
    no lower-case letter. *)
Theorem formURL_three_character_station (url : buffer) (type : urlType)
    (station : list ascii) :
  length url = URL_BUFFER_LEN ->
  strlen station = 3 ->
  forallb isalnum station = true ->
  exists url',
    formURL url URL_BUFFER_LEN type station = (Returns true, url', []) /\
    url_of url' =
      Some (lit match type with
                | METAR => "http://tgftp.nws.noaa.gov/data/observations/metar/stations/"
                | TAF => "http://tgftp.nws.noaa.gov/data/forecasts/taf/stations/"
                | Decoded => "http://tgftp.nws.noaa.gov/data/observations/metar/decoded/"
                end
            ++ (lit "K" ++ map toupper station) ++ lit ".TXT") /\
    length (lit "K" ++ map toupper station) = 4 /\
    forallb (fun c => isupper c || isdigit c) (lit "K" ++ map toupper station) = true.
Proof.
  intros Hlen H3 Hal.
  assert (Hok : station_ok station = true).
  { unfold station_ok. rewrite H3, Hal. reflexivity. }
  eexists. split; [|split; [|split]].
  - apply (formURL_valid _ _ _ Hlen Hok).
  - rewrite (url_of_valid _ _ Hok). unfold resource_url, station_field.
    rewrite H3. destruct type; reflexivity.
  - unfold strlen in H3. rewrite length_app, length_map, H3. reflexivity.
  - cbn [lit list_ascii_of_string app forallb]. cbn [andb].
    change (isupper "K" || isdigit "K") with true. cbn [andb].
    clear Hok H3. induction station as [|c s IH]; [reflexivity|].
    cbn in Hal. apply andb_prop in Hal as [Hc Hs]. cbn.
    rewrite (IH Hs), andb_true_r. clear - Hc. revert Hc.
    destruct c as [[] [] [] [] [] [] [] []]; vm_compute; intros; congruence.
Qed.

Lemma formURL_three_character_station_witness :
  (exists url',
     formURL (uninitialized URL_BUFFER_LEN) URL_BUFFER_LEN METAR (lit "sfo") =
       (Returns true, url', []) /\
     url_of url' =
       Some (lit "http://tgftp.nws.noaa.gov/data/observations/metar/stations/KSFO.TXT") /\
     length (lit "KSFO") = 4 /\
     forallb (fun c => isupper c || isdigit c) (lit "KSFO") = true) /\
  (exists url',
     formURL (uninitialized URL_BUFFER_LEN) URL_BUFFER_LEN TAF (lit "oRd") =
       (Returns true, url', []) /\
     url_of url' =
       Some (lit "http://tgftp.nws.noaa.gov/data/forecasts/taf/stations/KORD.TXT") /\
     length (lit "KORD") = 4 /\
     forallb (fun c => isupper c || isdigit c) (lit "KORD") = true) /\
  (exists url',
     formURL (uninitialized URL_BUFFER_LEN) URL_BUFFER_LEN Decoded (lit "lax") =
       (Returns true, url', []) /\
     url_of url' =
       Some (lit "http://tgftp.nws.noaa.gov/data/observations/metar/decoded/KLAX.TXT") /\
     length (lit "KLAX") = 4 /\
     forallb (fun c => isupper c || isdigit c) (lit "KLAX") = true).
Proof.
  split; [|split].
  - apply (formURL_three_character_station (uninitialized URL_BUFFER_LEN) METAR (lit "sfo"));
      reflexivity.
  - apply (formURL_three_character_station (uninitialized URL_BUFFER_LEN) TAF (lit "oRd"));
      reflexivity.
  - apply (formURL_three_character_station (uninitialized URL_BUFFER_LEN) Decoded (lit "lax"));
      reflexivity.
Defined.

(** C4. On an array of [URL_BUFFER_LEN] cells, for every request kind and
    every station, [formURL] neither stores outside the array nor fails its
    capacity assertion: it returns.  The capacity is the longest prefix, the
    4-character field, the extension and a terminator; the assertion's
    condition holds for each kind; and an accepted station leaves a complete,
    terminated URL inside the array. *)
Theorem formURL_within_buffer (url : buffer) (type : urlType) (station : list ascii) :
  length url = URL_BUFFER_LEN ->
  URL_BUFFER_LEN =
    strlen LONGEST_URL_PREFIX + STATION_ID_LEN + strlen URL_EXTENSION + 1 /\
  strlen (url_prefix type) <= strlen LONGEST_URL_PREFIX /\
  strlen (url_prefix type) + STATION_ID_LEN + sizeof_lit URL_EXTENSION <= URL_BUFFER_LEN /\
  exists b url' e,
    formURL url URL_BUFFER_LEN type station = (Returns b, url', e) /\
    length url' = URL_BUFFER_LEN /\
    (b = true ->
     exists u,
       url_of url' = Some u /\
       strlen u = strlen (url_prefix type) + STATION_ID_LEN + strlen URL_EXTENSION /\
       strlen u + 1 <= URL_BUFFER_LEN).
Proof.
  intros Hlen. split; [reflexivity|]. split; [destruct type; vm_compute; lia|].
  split; [apply url_prefix_fits|].
  destruct (station_ok station) eqn:Hok.
  - exists true. eexists. eexists. split; [apply (formURL_valid _ _ _ Hlen Hok)|].
    split; [rewrite length_cells; apply strncpy_image_length|].
    intros _. exists (resource_url type station).
    split; [apply (url_of_valid _ _ Hok)|].
    pose proof (resource_url_length type station Hok) as Hl.
    pose proof (url_prefix_fits type) as Hf.
    split; [exact Hl|]. unfold sizeof_lit, strlen in *. lia.
  - destruct (formURL_invalid _ type _ Hlen Hok) as (url' & E & Hl).
    exists false, url'. eexists. split; [exact E|]. split; [exact Hl|].
    intros H. discriminate H.
Qed.

Lemma formURL_within_buffer_witness :
  exists b url' e,
    formURL (uninitialized URL_BUFFER_LEN) URL_BUFFER_LEN METAR (lit "k1ab") =
      (Returns b, url', e) /\
    length url' = URL_BUFFER_LEN /\
    (b = true ->
     exists u,
       url_of url' = Some u /\
       strlen u = strlen (url_prefix METAR) + STATION_ID_LEN + strlen URL_EXTENSION /\
       strlen u + 1 <= URL_BUFFER_LEN).
Proof.
  apply (formURL_within_buffer (uninitialized URL_BUFFER_LEN) METAR (lit "k1ab")).
  reflexivity.
Defined.

(** ** Properties of the fetch loop *)

Lemma app_eq_self_inv {A} (l x : list A) : l ++ x = l -> x = [].
Proof.
  intros H. apply (app_inv_head l). rewrite app_nil_r. exact H.
Qed.

Lemma diagnostics_tell_apart (l e : list diag) (a b c : diag) (P1 P2 P3 : Prop) :
  (P1 /\ ~ P2 /\ ~ P3 /\ e = [a]) \/
  (~ P1 /\ P2 /\ ~ P3 /\ e = [b; c]) \/
  (~ P1 /\ ~ P2 /\ P3 /\ e = []) ->
  (l ++ e = l ++ [a] <-> P1) /\
  (l ++ e = l ++ [b; c] <-> P2) /\
  (l ++ e = l <-> P3).
Proof.
  intros [(H1 & H2 & H3 & ->)|[(H1 & H2 & H3 & ->)|(H1 & H2 & H3 & ->)]];
    (split; [|split]); (split; [intros H|intros HP; try reflexivity; try apply app_nil_r; tauto]);
    try assumption; exfalso.
  - apply app_inv_head in H. discriminate H.
  - apply app_eq_self_inv in H. discriminate H.
  - apply app_inv_head in H. discriminate H.
  - apply app_eq_self_inv in H. discriminate H.
  - apply app_inv_head in H. discriminate H.
  - apply app_inv_head in H. discriminate H.
Qed.



(** C5. For an accepted station, the iteration ends in exactly one of three
    ways, told apart by what it adds to standard error.  Exactly when the
    transfer's code is CURLE_REMOTE_FILE_NOT_FOUND or its response code is
    404: the one line [Station ID "<station>" not found].  Otherwise, exactly
    when the code is not CURLE_OK: libcurl's description of the code, then the
    line [Unable to fetch information for station ID "<station>"].  Otherwise
    nothing.  Both lines quote the station argument as typed.  In each case
    the iteration completes, so the loop continues. *)
Theorem primary_fetch_classified {World : Type}
    (transport : World -> CURL -> reply * World)
    (curl_easy_strerror : Z -> list ascii) (decoded tafs : bool)
    (station : list ascii) (p : proc World) :
  station_ok station = true ->
  let q := with_URL (resource_url (if decoded then Decoded else METAR) station) (curl p) in
  let r := fst (transport (world p) q) in
  let not_found :=
    result r = CURLE_REMOTE_FILE_NOT_FOUND \/ status r = HTTP_RESPONSE_NOT_FOUND in
  let not_found_line :=
    lit "Station ID " ++ ["034"%char] ++ station ++ ["034"%char] ++ lit " not found" in
  let unable_line :=
    lit "Unable to fetch information for station ID " ++
    ["034"%char] ++ station ++ ["034"%char] in
  exists p',
    main_loop_body transport curl_easy_strerror decoded tafs station p = inr p' /\
    (stderr p' = stderr p ++ [Warnx not_found_line] <-> not_found) /\
    (stderr p' =
       stderr p ++ [Warnx (curl_easy_strerror (result r)); Warnx unable_line] <->
     ~ not_found /\ result r <> CURLE_OK) /\
    (stderr p' = stderr p <-> ~ not_found /\ result r = CURLE_OK).
Proof.
  intros Hok q r not_found not_found_line unable_line.
  change not_found_line with (MSG_NOT_FOUND station).
  change unable_line with (MSG_UNABLE station).
  clear not_found_line unable_line.
  assert (Hbody : exists p' e,
            main_loop_body transport curl_easy_strerror decoded tafs station p = inr p' /\
            stderr p' = stderr p ++ e /\
            ((not_found /\ ~ (~ not_found /\ result r <> CURLE_OK) /\
              ~ (~ not_found /\ result r = CURLE_OK) /\
              e = [Warnx (MSG_NOT_FOUND station)]) \/
             (~ not_found /\ (~ not_found /\ result r <> CURLE_OK) /\
              ~ (~ not_found /\ result r = CURLE_OK) /\
              e = [Warnx (curl_easy_strerror (result r)); Warnx (MSG_UNABLE station)]) \/
             (~ not_found /\ ~ (~ not_found /\ result r <> CURLE_OK) /\
              (~ not_found /\ result r = CURLE_OK) /\ e = []))).
  { rewrite (main_loop_body_valid _ transport curl_easy_strerror decoded tafs _ p Hok).
    rewrite perform_printed. cbv zeta.
    cbn [stdout stderr curl response_code sent world complain set_handle setopt_URL].
    fold q. fold r.
    destruct (Z.eqb_spec (result r) CURLE_REMOTE_FILE_NOT_FOUND) as [E78|N78];
      [|destruct (Z.eqb_spec (status r) HTTP_RESPONSE_NOT_FOUND) as [E404|N404]];
      cbn [orb].
    - eexists. eexists. split; [reflexivity|]. split; [reflexivity|].
      left. unfold not_found. tauto.
    - eexists. eexists. split; [reflexivity|]. split; [reflexivity|].
      left. unfold not_found. tauto.
    - assert (Hnf : ~ not_found) by (unfold not_found; tauto).
      destruct (Z.eqb_spec (result r) CURLE_OK) as [E0|N0]; cbn [negb].
      + destruct tafs.
        * eexists. exists []. split; [reflexivity|].
          rewrite perform_printed. cbv zeta. cbn [stderr snd]. rewrite app_nil_r.
          split; [reflexivity|]. right. right. tauto.
        * eexists. exists []. split; [reflexivity|]. rewrite app_nil_r.
          split; [reflexivity|]. right. right. tauto.
      + eexists. eexists. split; [reflexivity|]. split; [reflexivity|].
        right. left. tauto. }
  destruct Hbody as (p' & e & E & He & Hcases).
  exists p'. split; [exact E|]. rewrite He.
  apply diagnostics_tell_apart, Hcases.
Qed.

Lemma primary_fetch_classified_witness :
  (exists p',
     main_loop_body scripted strerror_text false false (lit "KJFK")
       (entering_loop [Reply [] CURLE_HTTP_RETURNED_ERROR 404]) = inr p' /\
     stderr p' =
       [Warnx (lit "Station ID " ++ ["034"%char] ++ lit "KJFK" ++ ["034"%char] ++
               lit " not found")]) /\
  (exists p',
     main_loop_body scripted strerror_text false false (lit "KJFK")
       (entering_loop [Reply [] CURLE_OPERATION_TIMEDOUT 0]) = inr p' /\
     stderr p' =
       [Warnx (strerror_text CURLE_OPERATION_TIMEDOUT);
        Warnx (lit "Unable to fetch information for station ID " ++
               ["034"%char] ++ lit "KJFK" ++ ["034"%char])]) /\
  (exists p',
     main_loop_body scripted strerror_text false false (lit "KJFK")
       (entering_loop [Reply [text "OBS"] CURLE_OK 200]) = inr p' /\
     stderr p' = []).
Proof.
  split; [|split].
  - destruct (primary_fetch_classified scripted strerror_text false false (lit "KJFK")
                (entering_loop [Reply [] CURLE_HTTP_RETURNED_ERROR 404]))
      as (p' & E & (_ & Hnf) & _).
    + reflexivity.
    + exists p'. split; [exact E|]. apply Hnf. right. reflexivity.
  - destruct (primary_fetch_classified scripted strerror_text false false (lit "KJFK")
                (entering_loop [Reply [] CURLE_OPERATION_TIMEDOUT 0]))
      as (p' & E & _ & (_ & Hte) & _).
    + reflexivity.
    + exists p'. split; [exact E|]. apply Hte.
      split; [intros [H|H]; discriminate H|discriminate].
  - destruct (primary_fetch_classified scripted strerror_text false false (lit "KJFK")
                (entering_loop [Reply [text "OBS"] CURLE_OK 200]))
      as (p' & E & _ & _ & (_ & Hsu)).
    + reflexivity.
    + exists p'. split; [exact E|]. apply Hsu.
      split; [intros [H|H]; discriminate H|reflexivity].
Defined.

(** C6 as stated fails where [curl_easy_init] returns no handle and a station
    was given: [main] returns EX_SOFTWARE, not the usage status. *)
Lemma missing_client_is_not_usage_error :
  fst (main scripted strerror_text [lit "metar"; lit "KJFK"] false []) = Exit EX_SOFTWARE /\
  fst (main scripted strerror_text [lit "metar"; lit "KJFK"] false []) <> Exit EX_USAGE.
Proof. split; [reflexivity|discriminate]. Qed.

(** C6, amended. [main] exits with EX_USAGE when [getopt] meets an
    unrecognized option or no station argument is left; otherwise with the
    distinct status EX_SOFTWARE when [curl_easy_init] gives no handle;
    otherwise with EX_OK, whatever happens to the individual stations. *)
Theorem main_exit_status {World : Type} (transport : World -> CURL -> reply * World)
    (curl_easy_strerror : Z -> list ascii)
    (argv : list (list ascii)) (curl_available : bool) (w : World) :
  let results := fst (getopt_scan (lit "dt") (tail argv)) in
  let operands := snd (getopt_scan (lit "dt") (tail argv)) in
  fst (main transport curl_easy_strerror argv curl_available w) =
    (if existsb unrecognized results || (length operands =? 0)
     then Exit EX_USAGE
     else if curl_available then Exit EX_OK else Exit EX_SOFTWARE) /\
  EX_USAGE <> EX_OK /\ EX_SOFTWARE <> EX_OK /\ EX_SOFTWARE <> EX_USAGE.
Proof.
  cbv zeta. split; [apply main_termination|].
  repeat split; discriminate.
Qed.

(** C7. The write callback prints the memory at [contents] as a C string and
    never looks at [size * nmemb]: a NUL among the data bytes ends the output
    early, and bytes lying behind the data are printed along with it when no
    NUL follows the data at once; either way the whole chunk is reported as
    consumed.  So the body of a successful transfer can reach standard output
    cut short or with bytes added. *)
Theorem printData_ignores_chunk_size :
  let cut := Chunk (lit "AB" ++ [NUL] ++ lit "CD" ++ [NUL]) 1 5 in
  let long := Chunk (lit "AB" ++ lit "stale" ++ [NUL]) 1 2 in
  let run (ch : chunk) :=
    main scripted strerror_text [lit "metar"; lit "KJFK"] true [Reply [ch] CURLE_OK 200] in
  printData (contents cut) (size cut) (nmemb cut) [] = (lit "AB", 5) /\
  chunk_data cut = lit "AB" ++ [NUL] ++ lit "CD" /\
  printData (contents long) (size long) (nmemb long) [] = (lit "ABstale", 2) /\
  chunk_data long = lit "AB" /\
  succeeded (Reply [cut] CURLE_OK 200) = true /\
  fst (run cut) = Exit EX_OK /\
  stdout (snd (run cut)) = lit "AB" /\
  stdout (snd (run cut)) <> body (Reply [cut] CURLE_OK 200) /\
  stdout (snd (run long)) = lit "ABstale" /\
  stdout (snd (run long)) <> body (Reply [long] CURLE_OK 200).
Proof. cbv zeta. repeat split; try reflexivity; discriminate. Qed.

(** C8. With -t, after a successful primary transfer the run sends exactly
    one further request, to the TAF address, and stays silent on standard
    error; but the forecast body goes through [printData] like any other, so
    a successful forecast whose body holds a NUL reaches standard output cut
    short: the same defect as in C7. *)
Theorem forecast_body_cut_short :
  let obs := Reply [text "OBS"] CURLE_OK 200 in
  let taf := Reply [Chunk (lit "AB" ++ [NUL] ++ lit "CD" ++ [NUL]) 1 5] CURLE_OK 200 in
  let run := main scripted strerror_text [lit "metar"; lit "-t"; lit "KJFK"] true [obs; taf] in
  fst run = Exit EX_OK /\
  map CURLOPT_URL (sent (snd run)) =
    [lit "http://tgftp.nws.noaa.gov/data/observations/metar/stations/KJFK.TXT";
     lit "http://tgftp.nws.noaa.gov/data/forecasts/taf/stations/KJFK.TXT"] /\
  succeeded obs = true /\ succeeded taf = true /\
  body taf = lit "AB" ++ [NUL] ++ lit "CD" /\
  stderr (snd run) = [] /\
  stdout (snd run) = lit "OBS" ++ lit "AB" /\
  stdout (snd run) <> body obs ++ body taf.
Proof. cbv zeta. repeat split; try reflexivity; discriminate. Qed.

(** X16. With -t, after the primary transfer of an accepted station
    succeeded, the iteration sends exactly one more request, to the forecast
    address of the station (the TAF directory, the normalised field, ".TXT")
    whether or not -d was given.  Standard output gains what [printData]
    prints for the chunks of the two transfers, which for forecast chunks of
    NUL-free text followed by a NUL is the forecast body itself.  Whatever
    the outcome of the forecast transfer, nothing is added to standard error
    and the iteration completes; how [main] ends does not depend on the
    network at all. *)
Theorem forecast_fetch {World : Type} (transport : World -> CURL -> reply * World)
    (curl_easy_strerror : Z -> list ascii) (decoded : bool)
    (station : list ascii) (p : proc World) :
  station_ok station = true ->
  let q1 := with_URL (resource_url (if decoded then Decoded else METAR) station) (curl p) in
  let r1 := fst (transport (world p) q1) in
  let w1 := snd (transport (world p) q1) in
  let q2 := with_URL (resource_url TAF station) (curl p) in
  let r2 := fst (transport w1 q2) in
  succeeded r1 = true ->
  (exists p',
     main_loop_body transport curl_easy_strerror decoded true station p = inr p' /\
     sent p' = sent p ++ [q1; q2] /\
     CURLOPT_URL q2 =
       lit "http://tgftp.nws.noaa.gov/data/forecasts/taf/stations/" ++
       station_field station ++ lit ".TXT" /\
     stdout p' = stdout p ++ printed r1 ++ printed r2 /\
     (forallb terminated_text (delivered r2) = true -> printed r2 = body r2) /\
     stderr p' = stderr p /\
     world p' = snd (transport w1 q2)) /\
  (forall (World' : Type) (transport' : World' -> CURL -> reply * World')
          (curl_easy_strerror' : Z -> list ascii) (w : World) (w' : World')
          (argv : list (list ascii)) (curl_available : bool),
     fst (main transport curl_easy_strerror argv curl_available w) =
     fst (main transport' curl_easy_strerror' argv curl_available w')).
Proof.
  intros Hok q1 r1 w1 q2 r2 Hsucc. split.
  - rewrite (main_loop_body_valid _ transport curl_easy_strerror decoded true _ p Hok).
    rewrite perform_printed. cbv zeta.
    cbn [stdout stderr curl response_code sent world complain set_handle setopt_URL].
    fold q1. fold r1. fold w1.
    unfold succeeded in Hsucc. apply andb_prop in Hsucc as [Hnf H0].
    apply negb_true_iff in Hnf. rewrite Hnf, H0. cbn [negb].
    rewrite perform_printed. cbv zeta.
    cbn [stdout stderr curl response_code sent world complain set_handle setopt_URL snd].
    change (with_URL (resource_url TAF station) q1) with q2. fold r2.
    eexists. split; [reflexivity|].
    cbn [stdout stderr curl response_code sent world].
    rewrite <- !app_assoc. repeat split; try reflexivity.
    apply printed_text.
  - intros. rewrite !main_termination. reflexivity.
Qed.

Lemma forecast_fetch_witness :
  (exists p',
     main_loop_body scripted strerror_text true true (lit "lax")
       (entering_loop [Reply [text "OBS"] CURLE_OK 200;
                       Reply [text "TAF"] CURLE_OK 200]) = inr p' /\
     map CURLOPT_URL (sent p') =
       [lit "http://tgftp.nws.noaa.gov/data/observations/metar/decoded/KLAX.TXT";
        lit "http://tgftp.nws.noaa.gov/data/forecasts/taf/stations/KLAX.TXT"] /\
     stdout p' = lit "OBSTAF" /\
     stderr p' = []) /\
  (exists p',
     main_loop_body scripted strerror_text false true (lit "lax")
       (entering_loop [Reply [text "OBS"] CURLE_OK 200;
                       Reply [] CURLE_HTTP_RETURNED_ERROR 404]) = inr p' /\
     map CURLOPT_URL (sent p') =
       [lit "http://tgftp.nws.noaa.gov/data/observations/metar/stations/KLAX.TXT";
        lit "http://tgftp.nws.noaa.gov/data/forecasts/taf/stations/KLAX.TXT"] /\
     stdout p' = lit "OBS" /\
     stderr p' = []).
Proof.
  split.
  - destruct (forecast_fetch scripted strerror_text true (lit "lax")
                (entering_loop [Reply [text "OBS"] CURLE_OK 200;
                                Reply [text "TAF"] CURLE_OK 200]))
      as ((p' & E & Hs & _ & Ho & _ & He & _) & _).
    + reflexivity.
    + reflexivity.
    + exists p'. split; [exact E|]. rewrite Hs, Ho, He. repeat split; reflexivity.
  - destruct (forecast_fetch scripted strerror_text false (lit "lax")
                (entering_loop [Reply [text "OBS"] CURLE_OK 200;
                                Reply [] CURLE_HTTP_RETURNED_ERROR 404]))
      as ((p' & E & Hs & _ & Ho & _ & He & _) & _).
    + reflexivity.
    + reflexivity.
    + exists p'. split; [exact E|]. rewrite Hs, Ho, He. repeat split; reflexivity.
Defined.







(** * Further properties

    ** formURL on arrays of any size *)

Lemma strncpy_image_pad (s : list ascii) (k m : nat) :
  strncpy_image s (strlen s + k + m) = s ++ replicate k NUL ++ replicate m NUL.
Proof.
  unfold strncpy_image, strlen.
  rewrite take_app_ge by lia.
  replace (length s + k + m - length s) with (k + m) by lia.
  rewrite take_replicate, Nat.min_l by lia.
  rewrite replicate_add. reflexivity.
Qed.

Lemma bind_crash {A B} (m : M A) (k : A -> M B) (fr fr' : frame) (f : fault) :
  m fr = (Crash f, fr') -> bind m k fr = (Crash f, fr').
Proof. intros H. unfold bind. rewrite H. reflexivity. Qed.

Lemma store_outside (k : nat) (c : ascii) (fr : frame) :
  length (buf fr) <= k -> store k c fr = (Crash OutOfBounds, fr).
Proof.
  intros H. unfold store. apply Nat.ltb_ge in H. rewrite H. reflexivity.
Qed.

Lemma for_first_crash {A} (x : A) (xs : list A) (body : A -> M unit)
    (fr fr' : frame) (f : fault) :
  body x fr = (Crash f, fr') -> for_ (x :: xs) body fr = (Crash f, fr').
Proof. intros H. cbn [for_]. apply bind_crash, H. Qed.

Lemma station_ok_chars (station : list ascii) :
  station_ok station = true -> forallb isalnum station = true.
Proof. unfold station_ok. intros H. apply andb_prop in H as [_ H]. exact H. Qed.

(** An array with room for the prefix, the field, the extension and the
    terminator, and [m] cells more. *)
Lemma formURL_roomy (url : buffer) (n m : nat) (type : urlType) (station : list ascii) :
  n = strlen (url_prefix type) + 9 + m ->
  length url = n ->
  station_ok station = true ->
  formURL url n type station =
    (Returns true,
     cells (resource_url type station ++ [NUL]) ++ cells (replicate m NUL), []).
Proof.
  intros -> Hlen Hok.
  pose proof (station_ok_chars _ Hok) as Hal.
  destruct (station_ok_length _ Hok) as [Hst|Hst].
  - destruct station as [|a [|b [|c [|d [|e rest]]]]]; try discriminate Hst.
    cbn in Hal.
    apply andb_prop in Hal as [Ha Hal]. apply andb_prop in Hal as [Hb Hal].
    apply andb_prop in Hal as [Hc Hal]. apply andb_prop in Hal as [Hd _].
    enter_formURL Hlen. rewrite strncpy_image_pad.
    unfold cells. rewrite !fmap_app.
    generalize (Some <$> replicate m NUL). intros tail.
    destruct type; cbv -[isalnum toupper]; rewrite Ha, Hb, Hc, Hd; reflexivity.
  - destruct station as [|a [|b [|c [|d rest]]]]; try discriminate Hst.
    cbn in Hal.
    apply andb_prop in Hal as [Ha Hal]. apply andb_prop in Hal as [Hb Hal].
    apply andb_prop in Hal as [Hc _].
    enter_formURL Hlen. rewrite strncpy_image_pad.
    unfold cells. rewrite !fmap_app.
    generalize (Some <$> replicate m NUL). intros tail.
    destruct type; cbv -[isalnum toupper]; rewrite Ha, Hb, Hc; reflexivity.
Qed.

(** X1. [formURL] needs no more of its array than the prefix of the requested
    kind, the 4-character field, the extension and one terminator: on any
    array at least that long, passed with its true size, an accepted station
    yields true, no diagnostic, and the complete URL, whatever the array held
    before. *)
Theorem formURL_any_sufficient_array (url : buffer) (type : urlType)
    (station : list ascii) :
  station_ok station = true ->
  strlen (url_prefix type) + STATION_ID_LEN + sizeof_lit URL_EXTENSION <= length url ->
  exists url',
    formURL url (length url) type station = (Returns true, url', []) /\
    length url' = length url /\
    url_of url' = Some (resource_url type station).
Proof.
  intros Hok Hroom.
  pose proof (resource_url_length type station Hok) as Hl.
  unfold sizeof_lit, STATION_ID_LEN in Hroom. unfold strlen in *.
  change (length URL_EXTENSION) with 4 in *. change STATION_ID_LEN with 4 in Hl.
  set (m := length url - (length (url_prefix type) + 9)).
  eexists. split; [|split].
  - apply (formURL_roomy url (length url) m type station); [|reflexivity|exact Hok].
    unfold strlen. subst m. lia.
  - rewrite length_app, !length_cells, length_app, length_replicate, Hl.
    cbn [length]. subst m. lia.
  - unfold url_of, cells. rewrite <- fmap_app, <- app_assoc. cbn [app].
    apply read_cstring_terminated, resource_url_no_nul, station_ok_chars, Hok.
Qed.

Lemma formURL_any_sufficient_array_witness :
  exists url',
    formURL (uninitialized 100) (length (uninitialized 100)) TAF (lit "egll") =
      (Returns true, url', []) /\
    length url' = length (uninitialized 100) /\
    url_of url' = Some (resource_url TAF (lit "egll")).
Proof.
  apply (formURL_any_sufficient_array (uninitialized 100) TAF (lit "egll")).
  - reflexivity.
  - vm_compute. lia.
Defined.

(** X2. On an array that holds the prefix and the field but not the whole
    extension with its terminator, an accepted station runs into the
    capacity assertion: the call aborts, and the only line on standard error
    is the one the failing assertion writes about its expression. *)
Theorem formURL_assertion_fires (url : buffer) (type : urlType) (station : list ascii) :
  station_ok station = true ->
  strlen (url_prefix type) + STATION_ID_LEN <= length url ->
  length url < strlen (url_prefix type) + STATION_ID_LEN + sizeof_lit URL_EXTENSION ->
  fst (fst (formURL url (length url) type station)) = Faults AssertionFailed /\
  snd (formURL url (length url) type station) =
    [AssertionLine (lit "bufLen >= written + sizeof(URL_EXTENSION)")].
Proof.
  intros Hok Hlo Hhi.
  pose proof (station_ok_chars _ Hok) as Hal.
  assert (Hj : exists j, j < 5 /\
                 length url = strlen (url_prefix type) + STATION_ID_LEN + j).
  { exists (length url - (strlen (url_prefix type) + STATION_ID_LEN)).
    unfold sizeof_lit in Hhi. change (length URL_EXTENSION) with 4 in Hhi. lia. }
  destruct Hj as (j & Hj & Hlen). rewrite Hlen. clear Hlo Hhi.
  assert (Hcases : j = 0 \/ j = 1 \/ j = 2 \/ j = 3 \/ j = 4) by lia. clear Hj.
  destruct (station_ok_length _ Hok) as [Hst|Hst].
  - destruct station as [|a [|b [|c [|d [|e rest]]]]]; try discriminate Hst.
    cbn in Hal.
    apply andb_prop in Hal as [Ha Hal]. apply andb_prop in Hal as [Hb Hal].
    apply andb_prop in Hal as [Hc Hal]. apply andb_prop in Hal as [Hd _].
    destruct Hcases as [->|[->|[->|[->| ->]]]];
      enter_formURL Hlen;
      destruct type; cbv -[isalnum toupper]; rewrite Ha, Hb, Hc, Hd; split; reflexivity.
  - destruct station as [|a [|b [|c [|d rest]]]]; try discriminate Hst.
    cbn in Hal.
    apply andb_prop in Hal as [Ha Hal]. apply andb_prop in Hal as [Hb Hal].
    apply andb_prop in Hal as [Hc _].
    destruct Hcases as [->|[->|[->|[->| ->]]]];
      enter_formURL Hlen;
      destruct type; cbv -[isalnum toupper]; rewrite Ha, Hb, Hc; split; reflexivity.
Qed.

Lemma formURL_assertion_fires_witness :
  fst (fst (formURL (uninitialized 60) (length (uninitialized 60)) TAF (lit "egll"))) =
    Faults AssertionFailed /\
  snd (formURL (uninitialized 60) (length (uninitialized 60)) TAF (lit "egll")) =
    [AssertionLine (lit "bufLen >= written + sizeof(URL_EXTENSION)")].
Proof.
  apply (formURL_assertion_fires (uninitialized 60) TAF (lit "egll")).
  - reflexivity.
  - vm_compute. lia.
  - vm_compute. lia.
Defined.

(** X3. The assertion guards the extension only.  On an array too short for
    the prefix and the 4-character field, an accepted station is stored
    outside the array, in the first round of the copy loop, before the
    assertion is reached. *)
Theorem formURL_field_overruns_short_array (url : buffer) (type : urlType)
    (station : list ascii) :
  station_ok station = true ->
  length url < strlen (url_prefix type) + STATION_ID_LEN ->
  fst (fst (formURL url (length url) type station)) = Faults OutOfBounds.
Proof.
  intros Hok Hshort.
  pose proof (station_ok_chars _ Hok) as Hal.
  assert (Hstore : forall (c : ascii) (e : list diag),
            store (strlen (url_prefix type) + STATION_ID_LEN - 1) c
                  (Frame (cells (strncpy_image (url_prefix type) (length url))) e) =
            (Crash OutOfBounds,
             Frame (cells (strncpy_image (url_prefix type) (length url))) e)).
  { intros c e. apply store_outside. cbn [buf].
    rewrite length_cells, strncpy_image_length. lia. }
  unfold formURL, formURL_body.
  destruct (station_ok_length _ Hok) as [Hst|Hst].
  - destruct station as [|a [|b [|c [|d [|e rest]]]]]; try discriminate Hst.
    cbn in Hal.
    apply andb_prop in Hal as [_ Hal]. apply andb_prop in Hal as [_ Hal].
    apply andb_prop in Hal as [_ Hal]. apply andb_prop in Hal as [Hd _].
    erewrite (bind_val (when _ _)) by reflexivity.
    erewrite (bind_val (strncpy _ _ _)) by (apply strncpy_whole; reflexivity).
    erewrite (bind_crash (for_ _ _)); [reflexivity|].
    change (seq 1 (strlen [a; b; c; d])) with (1 :: seq 2 3).
    apply for_first_crash.
    erewrite (bind_val (when _ _)).
    + apply Hstore.
    + change (char_at [a; b; c; d] (strlen [a; b; c; d] - 1)) with d.
      rewrite Hd. reflexivity.
  - destruct station as [|a [|b [|c [|d rest]]]]; try discriminate Hst.
    cbn in Hal.
    apply andb_prop in Hal as [_ Hal]. apply andb_prop in Hal as [_ Hal].
    apply andb_prop in Hal as [Hc _].
    erewrite (bind_val (when _ _)) by reflexivity.
    erewrite (bind_val (strncpy _ _ _)) by (apply strncpy_whole; reflexivity).
    erewrite (bind_crash (for_ _ _)); [reflexivity|].
    change (seq 1 (strlen [a; b; c])) with (1 :: seq 2 2).
    apply for_first_crash.
    erewrite (bind_val (when _ _)).
    + apply Hstore.
    + change (char_at [a; b; c] (strlen [a; b; c] - 1)) with c.
      rewrite Hc. reflexivity.
Qed.

Lemma formURL_field_overruns_short_array_witness :
  fst (fst (formURL (uninitialized 40) (length (uninitialized 40)) METAR (lit "kjfk"))) =
    Faults OutOfBounds.
Proof.
  apply (formURL_field_overruns_short_array (uninitialized 40) METAR (lit "kjfk")).
  - reflexivity.
  - vm_compute. lia.
Defined.

(** ** Normalisation of the station *)

Lemma isalnum_toupper (c : ascii) : isalnum (toupper c) = isalnum c.
Proof. destruct c as [[] [] [] [] [] [] [] []]; reflexivity. Qed.

Lemma toupper_upper_or_digit (c : ascii) :
  isalnum c = true -> upper_or_digit (toupper c) = true.
Proof.
  destruct c as [[] [] [] [] [] [] [] []]; vm_compute; intros; congruence.
Qed.

Lemma forallb_isalnum_toupper (station : list ascii) :
  forallb isalnum (map toupper station) = forallb isalnum station.
Proof.
  induction station as [|c s IH]; [reflexivity|].
  cbn. rewrite isalnum_toupper, IH. reflexivity.
Qed.

Lemma station_ok_toupper (station : list ascii) :
  station_ok (map toupper station) = station_ok station.
Proof.
  unfold station_ok, strlen. rewrite length_map, forallb_isalnum_toupper. reflexivity.
Qed.

Lemma map_toupper_idempotent (station : list ascii) :
  map toupper (map toupper station) = map toupper station.
Proof.
  induction station as [|c s IH]; [reflexivity|].
  cbn. rewrite toupper_idempotent, IH. reflexivity.
Qed.

Lemma resource_url_toupper (type : urlType) (station : list ascii) :
  resource_url type (map toupper station) = resource_url type station.
Proof.
  unfold resource_url, station_field, strlen.
  rewrite length_map, map_toupper_idempotent. reflexivity.
Qed.

(** X4. The case of the letters does not matter: on the array of [main],
    [formURL] does for the upper-cased station exactly what it does for the
    station as typed: same result, same array, same diagnostics, accepted or
    not. *)
Theorem formURL_case_insensitive (url : buffer) (type : urlType) (station : list ascii) :
  length url = URL_BUFFER_LEN ->
  formURL url URL_BUFFER_LEN type (map toupper station) =
  formURL url URL_BUFFER_LEN type station.
Proof.
  intros Hlen. destruct (station_ok station) eqn:Hok.
  - rewrite (formURL_valid _ _ _ Hlen Hok).
    rewrite formURL_valid; [|exact Hlen|rewrite station_ok_toupper; exact Hok].
    rewrite resource_url_toupper. reflexivity.
  - destruct (Nat.eq_dec (strlen station) STATION_ID_LEN) as [H4|H4];
      [|destruct (Nat.eq_dec (strlen station)
                   (STATION_ID_LEN - DEFAULT_STATION_PREFIX_LEN)) as [H3|H3]].
    + destruct station as [|a [|b [|c [|d [|e rest]]]]]; try discriminate H4.
      cbn [map]. unfold formURL, formURL_body.
      erewrite !(bind_val (when _ _)) by reflexivity.
      erewrite !(bind_val (strncpy _ _ _)) by (apply strncpy_whole; exact Hlen).
      destruct type; cbv -[isalnum toupper];
        rewrite !isalnum_toupper, !toupper_idempotent; reflexivity.
    + destruct station as [|a [|b [|c [|d rest]]]]; try discriminate H3.
      cbn [map]. unfold formURL, formURL_body.
      erewrite !(bind_val (when _ _)) by reflexivity.
      erewrite !(bind_val (strncpy _ _ _)) by (apply strncpy_whole; exact Hlen).
      destruct type; cbv -[isalnum toupper];
        rewrite !isalnum_toupper, !toupper_idempotent; reflexivity.
    + rewrite !formURL_bad_length; unfold strlen in *; rewrite ?length_map; auto.
Qed.

Lemma formURL_case_insensitive_witness :
  formURL (uninitialized URL_BUFFER_LEN) URL_BUFFER_LEN Decoded (map toupper (lit "eDdF")) =
  formURL (uninitialized URL_BUFFER_LEN) URL_BUFFER_LEN Decoded (lit "eDdF").
Proof.
  apply (formURL_case_insensitive (uninitialized URL_BUFFER_LEN) Decoded (lit "eDdF")).
  reflexivity.
Defined.

(** X5. A 3-character station is the 4-character station with 'K' in front:
    [formURL] leaves the same URL for both. *)
Theorem formURL_default_prefix_alias (url : buffer) (type : urlType)
    (station : list ascii) :
  length url = URL_BUFFER_LEN ->
  strlen station = STATION_ID_LEN - DEFAULT_STATION_PREFIX_LEN ->
  forallb isalnum station = true ->
  formURL url URL_BUFFER_LEN type (DEFAULT_STATION_PREFIX ++ station) =
  formURL url URL_BUFFER_LEN type station.
Proof.
  intros Hlen H3 Hal.
  assert (Hok : station_ok station = true).
  { unfold station_ok. rewrite H3, Hal. reflexivity. }
  assert (Hok' : station_ok (DEFAULT_STATION_PREFIX ++ station) = true).
  { unfold station_ok, strlen in *. rewrite length_app, H3, forallb_app, Hal. reflexivity. }
  rewrite (formURL_valid _ _ _ Hlen Hok), (formURL_valid _ _ _ Hlen Hok').
  do 3 f_equal. unfold resource_url, station_field, strlen in *.
  rewrite length_app, H3. reflexivity.
Qed.

Lemma formURL_default_prefix_alias_witness :
  formURL (uninitialized URL_BUFFER_LEN) URL_BUFFER_LEN METAR (lit "Klax") =
  formURL (uninitialized URL_BUFFER_LEN) URL_BUFFER_LEN METAR (lit "lax").
Proof.
  apply (formURL_default_prefix_alias (uninitialized URL_BUFFER_LEN) METAR (lit "lax"));
    reflexivity.
Defined.

Lemma resource_url_injective (type1 type2 : urlType) (station1 station2 : list ascii) :
  station_ok station1 = true ->
  station_ok station2 = true ->
  resource_url type1 station1 = resource_url type2 station2 ->
  type1 = type2 /\ station_field station1 = station_field station2.
Proof.
  intros Hok1 Hok2 E.
  assert (Ht : type1 = type2).
  { pose proof (f_equal strlen E) as El.
    rewrite !resource_url_length in El by assumption.
    destruct type1, type2; try reflexivity; vm_compute in El; discriminate El. }
  subst type2. split; [reflexivity|].
  unfold resource_url in E. apply app_inv_head in E. apply app_inv_tail in E. exact E.
Qed.

(** X6. Two successful calls of [formURL] leave the same address only if they
    were for the same kind and for stations with the same normalised field
    (equal up to the case of letters and the default 'K'). *)
Theorem formURL_address_injective (url1 url2 url1' url2' : buffer)
    (type1 type2 : urlType) (station1 station2 : list ascii) (e1 e2 : list diag) :
  length url1 = URL_BUFFER_LEN ->
  length url2 = URL_BUFFER_LEN ->
  formURL url1 URL_BUFFER_LEN type1 station1 = (Returns true, url1', e1) ->
  formURL url2 URL_BUFFER_LEN type2 station2 = (Returns true, url2', e2) ->
  url_of url1' = url_of url2' ->
  type1 = type2 /\ station_field station1 = station_field station2.
Proof.
  intros Hl1 Hl2 H1 H2 E.
  destruct (formURL_true_inv _ _ _ _ _ Hl1 H1) as (Hok1 & -> & _).
  destruct (formURL_true_inv _ _ _ _ _ Hl2 H2) as (Hok2 & -> & _).
  rewrite (url_of_valid _ _ Hok1), (url_of_valid _ _ Hok2) in E.
  injection E as E. apply (resource_url_injective _ _ _ _ Hok1 Hok2 E).
Qed.

Lemma formURL_address_injective_witness :
  METAR = METAR /\ station_field (lit "lax") = station_field (lit "KLAX").
Proof.
  apply (formURL_address_injective
           (uninitialized URL_BUFFER_LEN) (uninitialized URL_BUFFER_LEN)
           (cells (strncpy_image (resource_url METAR (lit "lax")) URL_BUFFER_LEN))
           (cells (strncpy_image (resource_url METAR (lit "KLAX")) URL_BUFFER_LEN))
           METAR METAR (lit "lax") (lit "KLAX") [] []); reflexivity.
Defined.

Lemma station_field_upper_or_digit (station : list ascii) :
  station_ok station = true -> forallb upper_or_digit (station_field station) = true.
Proof.
  intros Hok. pose proof (station_ok_chars _ Hok) as Hal.
  unfold station_field. rewrite forallb_app. apply andb_true_intro. split.
  - destruct (_ =? _); reflexivity.
  - clear Hok. induction station as [|c s IH]; [reflexivity|].
    cbn in Hal. apply andb_prop in Hal as [Hc Hs].
    cbn. rewrite (toupper_upper_or_digit _ Hc). cbn. auto.
Qed.

(** X7. Whatever accepted station the user types, the address [formURL]
    leaves in the array is a prefix, a field of exactly four characters each
    of which is an upper-case letter or a digit, and the extension: no
    character of the argument reaches the address unchecked. *)
Theorem formURL_address_shape (url : buffer) (type : urlType) (station : list ascii)
    (url' : buffer) (e : list diag) :
  length url = URL_BUFFER_LEN ->
  formURL url URL_BUFFER_LEN type station = (Returns true, url', e) ->
  exists field,
    url_of url' = Some (url_prefix type ++ field ++ URL_EXTENSION) /\
    length field = STATION_ID_LEN /\
    forallb upper_or_digit field = true.
Proof.
  intros Hlen H.
  destruct (formURL_true_inv _ _ _ _ _ Hlen H) as (Hok & -> & _).
  exists (station_field station). split; [|split].
  - apply (url_of_valid _ _ Hok).
  - apply station_field_length, Hok.
  - apply station_field_upper_or_digit, Hok.
Qed.

Lemma formURL_address_shape_witness :
  exists field,
    url_of (cells (strncpy_image (resource_url TAF (lit "y2k")) URL_BUFFER_LEN)) =
      Some (url_prefix TAF ++ field ++ URL_EXTENSION) /\
    length field = STATION_ID_LEN /\
    forallb upper_or_digit field = true.
Proof.
  apply (formURL_address_shape (uninitialized URL_BUFFER_LEN) TAF (lit "y2k") _ []);
    reflexivity.
Defined.

(** ** printData *)

Lemma c_str_prefix (mem : list ascii) :
  exists rest,
    mem = c_str mem ++ rest /\
    forallb (fun c => negb (is_nul c)) (c_str mem) = true.
Proof.
  induction mem as [|c mem (rest & E & Hn)]; cbn.
  - exists []. auto.
  - destruct (is_nul c) eqn:Hc.
    + exists (c :: mem). auto.
    + exists rest. cbn. rewrite Hc, Hn. cbn. split; [f_equal; exact E|reflexivity].
Qed.

(** X8. On a chunk of text (no NUL among the data, a NUL right behind it)
    [printData] appends exactly the data bytes to standard output and reports
    exactly as many bytes as it printed. *)
Theorem printData_exact_on_text (ch : chunk) (out : list ascii) :
  terminated_text ch = true ->
  printData (contents ch) (size ch) (nmemb ch) out =
    (out ++ chunk_data ch, length (chunk_data ch)).
Proof.
  intros Ht. unfold printData. rewrite (c_str_text _ Ht). f_equal.
  unfold terminated_text in Ht.
  apply andb_prop in Ht as [Ht _]. apply andb_prop in Ht as [Hle _].
  apply Nat.leb_le in Hle. unfold chunk_data. rewrite length_take. lia.
Qed.

Lemma printData_exact_on_text_witness :
  printData (contents (text "METAR KJFK")) (size (text "METAR KJFK"))
            (nmemb (text "METAR KJFK")) (lit "> ") =
    (lit "> " ++ chunk_data (text "METAR KJFK"), length (chunk_data (text "METAR KJFK"))).
Proof.
  apply (printData_exact_on_text (text "METAR KJFK") (lit "> ")). reflexivity.
Defined.

(** X9. Whatever the chunks hold, the callback never makes libcurl abandon a
    transfer: every chunk is handed over, earlier output is kept, what is
    added is free of NUL bytes, and [curl_easy_perform] yields the code of
    the transfer itself. *)
Theorem printData_never_aborts_transfer {World : Type}
    (transport : World -> CURL -> reply * World) (p : proc World) :
  let r := fst (transport (world p) (curl p)) in
  snd (deliver (delivered r) (stdout p)) = true /\
  fst (curl_easy_perform transport p) = result r /\
  stdout (snd (curl_easy_perform transport p)) = stdout p ++ printed r /\
  forallb (fun c => negb (is_nul c)) (printed r) = true.
Proof.
  cbv zeta. rewrite perform_printed, deliver_all. cbn [fst snd stdout].
  repeat split. unfold printed.
  induction (delivered (transport (world p) (curl p)).1) as [|ch chunks IH]; [reflexivity|].
  cbn [map concat]. rewrite forallb_app, IH.
  destruct (c_str_prefix (contents ch)) as (rest & _ & ->). reflexivity.
Qed.

(** ** Options *)

(** X10. The option loop only ever sets flags: when every value [getopt]
    returns is 'd' or 't', decoded output is on exactly if it was on before or
    some value is 'd', and likewise for the forecasts with 't'; order and
    repetition of the options make no difference. *)
Theorem main_options_accumulate (results : list opt_result) (decoded tafs : bool) :
  forallb (fun r => selects "d" r || selects "t" r) results = true ->
  main_options results decoded tafs =
    inl (decoded || existsb (selects "d") results, tafs || existsb (selects "t") results).
Proof.
  revert decoded tafs. induction results as [|r rest IH]; intros decoded tafs Hk.
  - cbn. rewrite !orb_false_r. reflexivity.
  - cbn in Hk. apply andb_prop in Hk as [Hr Hk]. cbn [main_options existsb].
    unfold selects in *. destruct (Ascii.eqb (returned r) "d") eqn:Ed.
    + rewrite (IH _ _ Hk).
      assert (Et : Ascii.eqb (returned r) "t" = false).
      { apply Ascii.eqb_eq in Ed. rewrite Ed. reflexivity. }
      rewrite Et. cbn [orb]. rewrite orb_true_r. reflexivity.
    + cbn in Hr. rewrite Hr. rewrite (IH _ _ Hk). cbn [orb].
      rewrite orb_true_r. reflexivity.
Qed.

Lemma main_options_accumulate_witness :
  main_options [Opt "t"; Opt "d"; Opt "t"]%char false false =
    inl (false || existsb (selects "d") [Opt "t"; Opt "d"; Opt "t"]%char,
         false || existsb (selects "t") [Opt "t"; Opt "d"; Opt "t"]%char).
Proof.
  apply (main_options_accumulate [Opt "t"; Opt "d"; Opt "t"]%char false false).
  reflexivity.
Defined.

(** ** The run as a whole *)

(** X11. A run that does not end with the success status has done nothing
    but complain: nothing on standard output, no request sent, the network
    untouched.  With the usage status standard error holds one complaint and
    the usage text; with the software status (no handle from
    [curl_easy_init]) it holds nothing at all. *)
Theorem failed_start_does_nothing {World : Type}
    (transport : World -> CURL -> reply * World)
    (curl_easy_strerror : Z -> list ascii)
    (argv : list (list ascii)) (curl_available : bool) (w : World) :
  let run := main transport curl_easy_strerror argv curl_available w in
  fst run <> Exit EX_OK ->
  stdout (snd run) = [] /\ sent (snd run) = [] /\ world (snd run) = w /\
  ((fst run = Exit EX_USAGE /\ exists d, stderr (snd run) = [d; UsageText]) \/
   (fst run = Exit EX_SOFTWARE /\ stderr (snd run) = [])).
Proof.
  cbv zeta. unfold main.
  destruct (getopt_scan (lit "dt") (tail argv)) as [results operands].
  destruct (main_options results false false) as [[decoded tafs]|c].
  - destruct operands as [|station rest].
    + intros _. cbn. repeat split. left. split; [reflexivity|]. eauto.
    + cbn [length Nat.ltb Nat.leb]. destruct curl_available; cbn [negb].
      * destruct (main_loop_completes _ transport curl_easy_strerror decoded tafs
                    (station :: rest)
                    (set_handle (Handle [] true REQUEST_TIMEOUT true)
                                (Proc [] [] fresh_handle 0%Z [] w))) as [p' ->].
        intros H. contradiction H. reflexivity.
      * intros _. cbn. repeat split. right. split; reflexivity.
  - intros _. cbn. repeat split. left. split; [reflexivity|]. eauto.
Qed.

Lemma failed_start_does_nothing_witness :
  stdout (snd (main scripted strerror_text [lit "metar"; lit "-x"; lit "KJFK"] true
                    [Reply [text "OBS"] CURLE_OK 200])) = [] /\
  sent (snd (main scripted strerror_text [lit "metar"; lit "-x"; lit "KJFK"] true
                  [Reply [text "OBS"] CURLE_OK 200])) = [].
Proof.
  destruct (failed_start_does_nothing scripted strerror_text
              [lit "metar"; lit "-x"; lit "KJFK"] true
              [Reply [text "OBS"] CURLE_OK 200]) as (Ho & Hs & _).
  - discriminate.
  - split; [exact Ho|exact Hs].
Defined.

Lemma transfers_without_tafs {World : Type} (transport : World -> CURL -> reply * World)
    (h : CURL) (decoded : bool) (stations : list (list ascii)) (w : World) :
  map fst (transfers transport h decoded false stations w) =
    map (fun station =>
           with_URL (resource_url (if decoded then Decoded else METAR) station) h)
        (filter (fun station => station_ok station = true) stations).
Proof.
  revert w. induction stations as [|station rest IH]; intros w; [reflexivity|].
  cbn [transfers]. destruct (station_ok station) eqn:Hok.
  - rewrite filter_cons_True by exact Hok.
    destruct (transport w _) as [r1 w1]. rewrite andb_false_r.
    cbn [map fst]. rewrite IH. reflexivity.
  - rewrite filter_cons_False by (rewrite Hok; discriminate). apply IH.
Qed.

(** X12. Without -t the requests of a run are fixed by the arguments alone:
    one request per accepted station, in argument order, to the decoded
    address with -d and to the raw one without, whatever the network answers;
    rejected stations cause none. *)
Theorem requests_without_forecasts {World : Type}
    (transport : World -> CURL -> reply * World)
    (curl_easy_strerror : Z -> list ascii)
    (argv : list (list ascii)) (w : World) (decoded : bool) :
  let operands := snd (getopt_scan (lit "dt") (tail argv)) in
  main_options (fst (getopt_scan (lit "dt") (tail argv))) false false =
    inl (decoded, false) ->
  operands <> [] ->
  map CURLOPT_URL (sent (snd (main transport curl_easy_strerror argv true w))) =
    map (resource_url (if decoded then Decoded else METAR))
        (filter (fun station => station_ok station = true) operands).
Proof.
  intros operands Hopt Hne. subst operands. unfold main.
  destruct (getopt_scan (lit "dt") (tail argv)) as [results ops].
  cbn [fst snd] in *. rewrite Hopt.
  destruct ops as [|station rest]; [contradiction|].
  cbn [length Nat.ltb Nat.leb negb].
  destruct (main_loop_transfers _ transport curl_easy_strerror decoded false
              (station :: rest)
              (set_handle (Handle [] true REQUEST_TIMEOUT true)
                          (Proc [] [] fresh_handle 0%Z [] w)))
    as (p' & -> & _ & Hs).
  cbn [snd]. rewrite Hs. cbn [sent curl world set_handle app].
  rewrite transfers_without_tafs, map_map. reflexivity.
Qed.

Lemma requests_without_forecasts_witness :
  map CURLOPT_URL
      (sent (snd (main scripted strerror_text
                       [lit "metar"; lit "-d"; lit "egll"; lit "no"; lit "sfo"] true
                       [Reply [] CURLE_HTTP_RETURNED_ERROR 404]))) =
    map (resource_url Decoded)
        (filter (fun station => station_ok station = true)
                [lit "egll"; lit "no"; lit "sfo"]).
Proof.
  apply (requests_without_forecasts scripted strerror_text
           [lit "metar"; lit "-d"; lit "egll"; lit "no"; lit "sfo"]
           [Reply [] CURLE_HTTP_RETURNED_ERROR 404] true).
  - reflexivity.
  - discriminate.
Defined.

(** X13. When the primary transfer of an accepted station does not succeed,
    the iteration stops there even with -t: that one request only, so no
    forecast request, and a complaint on standard error.  Standard output has
    already gained what [printData] printed for the chunks the transfer
    delivered before failing; for chunks of NUL-free text followed by a NUL
    that is the delivered data itself. *)
Theorem failed_primary_ends_iteration {World : Type}
    (transport : World -> CURL -> reply * World)
    (curl_easy_strerror : Z -> list ascii) (decoded tafs : bool)
    (station : list ascii) (p : proc World) :
  station_ok station = true ->
  let q := with_URL (resource_url (if decoded then Decoded else METAR) station) (curl p) in
  let r := fst (transport (world p) q) in
  succeeded r = false ->
  exists p',
    main_loop_body transport curl_easy_strerror decoded tafs station p = inr p' /\
    sent p' = sent p ++ [q] /\
    stdout p' = stdout p ++ printed r /\
    (forallb terminated_text (delivered r) = true -> stdout p' = stdout p ++ body r) /\
    world p' = snd (transport (world p) q) /\
    stderr p' <> stderr p.
Proof.
  intros Hok q r Hfail.
  rewrite (main_loop_body_valid _ transport curl_easy_strerror decoded tafs _ p Hok).
  rewrite perform_printed. cbv zeta.
  cbn [stdout stderr curl response_code sent world complain set_handle setopt_URL].
  fold q. fold r. unfold succeeded in Hfail.
  destruct ((result r =? CURLE_REMOTE_FILE_NOT_FOUND)%Z ||
            (status r =? HTTP_RESPONSE_NOT_FOUND)%Z).
  - eexists. split; [reflexivity|].
    cbn [stdout stderr curl response_code sent world complain].
    repeat split.
    + intros Ht. rewrite (printed_text _ Ht). reflexivity.
    + intros H. apply app_eq_self_inv in H. discriminate H.
  - cbn [negb andb] in Hfail. rewrite Hfail. cbn [negb].
    eexists. split; [reflexivity|].
    cbn [stdout stderr curl response_code sent world complain].
    repeat split.
    + intros Ht. rewrite (printed_text _ Ht). reflexivity.
    + intros H. apply app_eq_self_inv in H. discriminate H.
Qed.

Lemma failed_primary_ends_iteration_witness :
  exists p',
    main_loop_body scripted strerror_text false true (lit "KJFK")
      (entering_loop [Reply [text "PART"] CURLE_OPERATION_TIMEDOUT 0;
                      Reply [text "TAF"] CURLE_OK 200]) = inr p' /\
    map CURLOPT_URL (sent p') = [resource_url METAR (lit "KJFK")] /\
    stdout p' = lit "PART".
Proof.
  destruct (failed_primary_ends_iteration scripted strerror_text false true (lit "KJFK")
              (entering_loop [Reply [text "PART"] CURLE_OPERATION_TIMEDOUT 0;
                              Reply [text "TAF"] CURLE_OK 200]))
    as (p' & E & Hs & _ & Ho & _).
  - reflexivity.
  - reflexivity.
  - exists p'. split; [exact E|]. rewrite Hs, Ho by reflexivity. split; reflexivity.
Defined.

Lemma bulletin_request_with_URL (type : urlType) (station : list ascii) (h : CURL) :
  station_ok station = true ->
  CURLOPT_FAILONERROR h = true ->
  CURLOPT_TIMEOUT h = REQUEST_TIMEOUT ->
  CURLOPT_FOLLOWLOCATION h = true ->
  bulletin_request (with_URL (resource_url type station) h).
Proof.
  intros Hok Hf Ht Hl. unfold bulletin_request. cbn. repeat split; try assumption.
  exists type, (station_field station). split; [reflexivity|]. split.
  - apply station_field_length, Hok.
  - apply station_field_upper_or_digit, Hok.
Qed.

Lemma transfers_bulletin_requests {World : Type}
    (transport : World -> CURL -> reply * World)
    (h : CURL) (decoded tafs : bool) (stations : list (list ascii)) (w : World) :
  CURLOPT_FAILONERROR h = true ->
  CURLOPT_TIMEOUT h = REQUEST_TIMEOUT ->
  CURLOPT_FOLLOWLOCATION h = true ->
  Forall bulletin_request (map fst (transfers transport h decoded tafs stations w)).
Proof.
  intros Hf Ht Hl. revert w.
  induction stations as [|station rest IH]; intros w; [constructor|].
  cbn [transfers]. destruct (station_ok station) eqn:Hok; [|apply IH].
  destruct (transport w _) as [r1 w1].
  destruct (succeeded r1 && tafs).
  - destruct (transport w1 _) as [r2 w2]. cbn [map fst].
    constructor; [apply bulletin_request_with_URL; assumption|].
    constructor; [apply bulletin_request_with_URL; assumption|]. apply IH.
  - cbn [map fst].
    constructor; [apply bulletin_request_with_URL; assumption|]. apply IH.
Qed.

(** X14. Whatever the arguments and whatever the network does, every request
    a run sends asks for an address made of one of the three fixed prefixes,
    four upper-case letters or digits and ".TXT", with error-on-failure
    status, the 3-second timeout and redirect following switched on. *)
Theorem main_sends_only_bulletin_requests {World : Type}
    (transport : World -> CURL -> reply * World)
    (curl_easy_strerror : Z -> list ascii)
    (argv : list (list ascii)) (curl_available : bool) (w : World) :
  Forall bulletin_request
         (sent (snd (main transport curl_easy_strerror argv curl_available w))).
Proof.
  unfold main.
  destruct (getopt_scan (lit "dt") (tail argv)) as [results operands].
  destruct (main_options results false false) as [[decoded tafs]|c]; [|constructor].
  destruct (length operands <? 1); [constructor|].
  destruct curl_available; cbn [negb]; [|constructor].
  destruct (main_loop_transfers _ transport curl_easy_strerror decoded tafs operands
              (set_handle (Handle [] true REQUEST_TIMEOUT true)
                          (Proc [] [] fresh_handle 0%Z [] w)))
    as (p' & -> & _ & Hs).
  cbn [snd]. rewrite Hs. cbn [sent curl world set_handle app].
  apply transfers_bulletin_requests; reflexivity.
Qed.

Lemma transfers_cover {World : Type} (transport : World -> CURL -> reply * World)
    (h : CURL) (decoded tafs : bool) (stations : list (list ascii)) (w : World)
    (station : list ascii) :
  In station stations ->
  station_ok station = true ->
  In (with_URL (resource_url (if decoded then Decoded else METAR) station) h)
     (map fst (transfers transport h decoded tafs stations w)).
Proof.
  intros Hin Hok. revert w.
  induction stations as [|first rest IH]; intros w; [contradiction Hin|].
  cbn [transfers]. destruct Hin as [->|Hin].
  - rewrite Hok. destruct (transport w _) as [r1 w1].
    destruct (succeeded r1 && tafs).
    + destruct (transport w1 _) as [r2 w2]. left. reflexivity.
    + left. reflexivity.
  - destruct (station_ok first); [|apply IH, Hin].
    destruct (transport w _) as [r1 w1].
    destruct (succeeded r1 && tafs).
    + destruct (transport w1 _) as [r2 w2]. right. right. apply IH, Hin.
    + right. apply IH, Hin.
Qed.

(** X15. No accepted station is skipped: whatever the flags, and whatever
    happened to the stations before it (rejected, not found, transport
    error), the primary address of every accepted station argument is among
    the requests the run sends. *)
Theorem every_accepted_station_is_requested {World : Type}
    (transport : World -> CURL -> reply * World)
    (curl_easy_strerror : Z -> list ascii)
    (argv : list (list ascii)) (w : World) (decoded tafs : bool)
    (station : list ascii) :
  main_options (fst (getopt_scan (lit "dt") (tail argv))) false false =
    inl (decoded, tafs) ->
  In station (snd (getopt_scan (lit "dt") (tail argv))) ->
  station_ok station = true ->
  In (resource_url (if decoded then Decoded else METAR) station)
     (map CURLOPT_URL (sent (snd (main transport curl_easy_strerror argv true w)))).
Proof.
  intros Hopt Hin Hok. unfold main.
  destruct (getopt_scan (lit "dt") (tail argv)) as [results operands].
  cbn [fst snd] in *. rewrite Hopt.
  destruct operands as [|first rest]; [contradiction Hin|].
  cbn [length Nat.ltb Nat.leb negb].
  destruct (main_loop_transfers _ transport curl_easy_strerror decoded tafs
              (first :: rest)
              (set_handle (Handle [] true REQUEST_TIMEOUT true)
                          (Proc [] [] fresh_handle 0%Z [] w)))
    as (p' & -> & _ & Hs).
  cbn [snd]. rewrite Hs. cbn [sent curl world set_handle app].
  apply (in_map CURLOPT_URL) with
    (x := with_URL (resource_url (if decoded then Decoded else METAR) station)
                   (Handle [] true REQUEST_TIMEOUT true)).
  apply transfers_cover; assumption.
Qed.

Lemma every_accepted_station_is_requested_witness :
  In (resource_url METAR (lit "sfo"))
     (map CURLOPT_URL
          (sent (snd (main scripted strerror_text
                           [lit "metar"; lit "-t"; lit "toolong"; lit "kjfk"; lit "sfo"]
                           true
                           [Reply [] CURLE_COULDNT_CONNECT 0])))).
Proof.
  apply (every_accepted_station_is_requested scripted strerror_text
           [lit "metar"; lit "-t"; lit "toolong"; lit "kjfk"; lit "sfo"]
           [Reply [] CURLE_COULDNT_CONNECT 0] false true (lit "sfo")).
  - reflexivity.
  - right. right. left. reflexivity.
  - reflexivity.
Defined.
